(** * pefcl: transaction and cash services

    A shallow embedding of [TransactionService]
    (server/services/transaction/transaction.service.ts) and of
    [CashService] (server/services/cash/cash.service.ts), with the
    properties of the transfer, history and cash handlers stated and proved
    over it.

    Handlers are asynchronous methods that read and write a relational
    store through an ORM and may throw.  They are embedded in a
    state-and-exception monad over a [World]; every awaited call is one
    monadic step.  Amounts and balances are integers in the store, where
    the balance updates are computed; the history handler adds the
    amounts it fetched as JavaScript numbers, which are IEEE 754 doubles. *)

From Stdlib Require Import ZArith String List Lia.
From Stdlib Require Import Floats.SpecFloat.
From stdpp Require Import base option list gmap strings.

Local Open Scope Z_scope.

(** ** Data model *)

(** typings/transactions: [TransactionType] and [TransferType]. *)
Inductive TransactionType := Outgoing | Incoming | Transfer.
Inductive TransferType := Internal | External.

(** Modelled from the spec: [AccountRole] of typings/Account, the roles a
    player can hold on a shared account (owner, admin, member). *)
Inductive AccountRole := Owner | Admin | Member.

(** What a handler can throw: [new ServerError(GenericErrors.NotFound)], or
    whatever the persistence layer raises. *)
Inductive Exception :=
| ServerError_NotFound
| DatabaseError (msg : string).

#[global] Instance TransactionType_eq_dec : EqDecision TransactionType.
Proof. solve_decision. Defined.
#[global] Instance TransferType_eq_dec : EqDecision TransferType.
Proof. solve_decision. Defined.
#[global] Instance AccountRole_eq_dec : EqDecision AccountRole.
Proof. solve_decision. Defined.
#[global] Instance Exception_eq_dec : EqDecision Exception.
Proof. solve_decision. Defined.

(** A row of the accounts table, stored under its primary key. *)
Record AccountRow := mkAccountRow {
  row_ownerIdentifier : string;
  row_balance : Z;
}.

(** An account as a handler holds it: the model instance a query returned,
    which is also the value of its [toJSON()].  The instance keeps the
    values it was loaded with: [increment] and [decrement] are done in the
    database and the source never reloads. *)
Record Account := mkAccount {
  acc_id : Z;
  acc_ownerIdentifier : string;
  acc_balance : Z;
}.

#[global] Instance Account_eq_dec : EqDecision Account.
Proof. solve_decision. Defined.

Definition accountInstance (id : Z) (r : AccountRow) : Account :=
  mkAccount id (row_ownerIdentifier r) (row_balance r).

(** The argument of [TransactionDB.create]. *)
Record TransactionInput := mkTransactionInput {
  in_amount : Z;
  in_message : string;
  in_toAccount : option Account;
  in_fromAccount : option Account;
  in_type : TransactionType;
}.

(** A ledger row.  [tx_createdAt] is a timestamp in milliseconds; the source
    reads it as [getDataValue('createdAt') ?? ''], so it may be absent. *)
Record Transaction := mkTransaction {
  tx_id : Z;
  tx_amount : Z;
  tx_message : string;
  tx_toAccount : option Account;
  tx_fromAccount : option Account;
  tx_type : TransactionType;
  tx_createdAt : option Z;
}.

(** A cash model instance; the cash table holds one amount per player
    identifier. *)
Record Cash := mkCash {
  cash_ownerIdentifier : string;
  cash_amount : Z;
}.

(** A grant of a role on a shared account. *)
Record SharedAccount := mkSharedAccount {
  sh_accountId : Z;
  sh_user : string;
  sh_role : AccountRole;
}.

(** The relational store. *)
Record DB := mkDB {
  accounts : gmap Z AccountRow;
  sharedAccounts : list SharedAccount;
  externalAccounts : gmap Z Z;
  transactions : list Transaction;
  cash : gmap string Z;
}.

(** The payload of a transfer request ([Transfer] in typings/transactions)
    and the request itself ([Request<Transfer>]). *)
Record TransferData := mkTransferData {
  fromAccountId : Z;
  toAccountId : Z;
  amount : Z;
  message : string;
  type : TransferType;
}.

Record Request (A : Type) := mkRequest {
  source : Z;
  data : A;
}.
Arguments mkRequest {A} _ _.
Arguments source {A} _.
Arguments data {A} _.

(** The functions the framework integration exports
    ([AccountServiceExports]), as the calls made to them. *)
Inductive ExportCall :=
| pefclDepositMoney (source : Z) (amount : Z)
| pefclWithdrawMoney (source : Z) (amount : Z).

#[global] Instance ExportCall_eq_dec : EqDecision ExportCall.
Proof. solve_decision. Defined.

(** The handle of a database transaction, as [sequelize.transaction()]
    returns it when called without a callback. *)
Inductive TransactionHandle := unmanaged.

(** What a handler can observe and change: the store as it is committed,
    the writes of the statements that run inside the open transaction and
    wait for its commit (oldest first), and the calls made to the framework
    integration so far (oldest first). *)
Record World := mkWorld {
  db : DB;
  enlisted : list (DB -> DB);
  exportCalls : list ExportCall;
}.

(** The options of [increment] and [decrement]: [{ by, transaction }]. *)
Record IncrementOptions := mkIncrementOptions {
  by_ : Z;
  transaction : option TransactionHandle;
}.

(** ** The monad of handlers *)

Inductive Result (A : Type) :=
| Ok (a : A)
| Throw (e : Exception).
Arguments Ok {A} _.
Arguments Throw {A} _.

Definition M (A : Type) : Type := World -> Result A * World.

#[global] Instance M_ret : MRet M := fun A a w => (Ok a, w).

#[global] Instance M_bind : MBind M := fun A B f m w =>
  match m w with
  | (Ok a, w') => f a w'
  | (Throw e, w') => (Throw e, w')
  end.

(** [throw e]: state changes made so far stay. *)
Definition throw {A} (e : Exception) : M A := fun w => (Throw e, w).

(** [try { body } catch (e) { handler(e) }]. *)
Definition try_catch {A} (body : M A) (handler : Exception -> M A) : M A :=
  fun w =>
    match body w with
    | (Ok a, w') => (Ok a, w')
    | (Throw e, w') => handler e w'
    end.

(** The JavaScript [a ?? b] on nullable values. *)
Definition nullish {A} (a b : option A) : option A :=
  match a with
  | Some x => Some x
  | None => b
  end.

(** ** JavaScript numbers

    A JavaScript number is an IEEE 754 double: a mantissa of 53 bits, the
    exponents of binary64, signed zeros, infinities and NaN.  [+] and [-]
    round the exact result to the nearest double, ties to even. *)
Definition Number : Type := spec_float.

Definition jsZero : Number := S754_zero false.

Definition jsAdd : Number -> Number -> Number := SFadd 53 1024.

Definition jsSub : Number -> Number -> Number := SFsub 53 1024.

(** [a <= b] on numbers: false when either is NaN. *)
Definition jsLe : Number -> Number -> bool := SFleb.

(** The number an integer column of the store is read as: the double
    nearest to it, which is the integer itself up to 53 bits. *)
Definition toNumber (z : Z) : Number := binary_normalize 53 1024 z 0 false.

(** The integer a finite number stands for, its fraction cut off. *)
Definition toInteger (x : Number) : Z :=
  match x with
  | S754_finite s m e => cond_Zopp s (Z.shiftl (Zpos m) e)
  | _ => 0
  end.

(** The double of sign [s] and magnitude [p], for [p] of at most 53 bits:
    the mantissa is [p] shifted to 53 bits. *)
Definition normal (s : bool) (p : positive) : Number :=
  S754_finite s (Pos.shiftl p (Z.to_N (53 - Zpos (digits2_pos p))))
              (Zpos (digits2_pos p) - 53).

Definition signed (s : bool) (p : positive) : Z := cond_Zopp s (Zpos p).

(** A number that is not NaN and, unless it is a zero, has the sign [s]
    ([true] for negative). *)
Definition hasSign (s : bool) (x : Number) : Prop :=
  match x with
  | S754_zero _ => True
  | S754_infinity s' | S754_finite s' _ _ => s' = s
  | S754_nan => False
  end.

(** The answer of [handleGetHistory]
    ([GetTransactionHistoryResponse]): the totals, and the totals of each
    day under its date string. *)
Record DayTotals := mkDayTotals {
  day_income : Number;
  day_expenses : Number;
}.

Record GetTransactionHistoryResponse := mkHistory {
  resp_income : Number;
  resp_lastWeek : gmap string DayTotals;
  resp_expenses : Number;
}.

(** ** The persistence layer *)

(** Every awaited call to the persistence layer, with its arguments. *)
Inductive Statement :=
| SqlTransaction
| SqlGetAccount (id : Z)
| SqlGetAuthorizedAccountById (id : Z) (identifier : string)
| SqlGetAuthorizedSharedAccountById
    (id : Z) (identifier : string) (roles : list AccountRole)
| SqlGetAccountsByIdentifier (identifier : string)
| SqlGetAccountFromExternalAccount (id : Z)
| SqlIncrementBalance (id : Z) (by_ : Z)
| SqlDecrementBalance (id : Z) (by_ : Z)
| SqlCreateTransaction (input : TransactionInput)
| SqlGetAllTransactionsFromAccounts (accountIds : list Z) (since : Z)
| SqlGetCashByIdentifier (identifier : string)
| SqlIncrementCash (identifier : string) (by_ : Z)
| SqlDecrementCash (identifier : string) (by_ : Z).

(** What the queries of [AccountDB], [ExternalAccountService] and
    [TransactionDB] answer on a given store.  The handlers are verified for
    any answers; [storeQueries] below is the intended one. *)
Record Queries := mkQueries {
  selectAccount : DB -> Z -> option Account;
  selectAuthorizedAccount : DB -> Z -> string -> option Account;
  selectAuthorizedSharedAccount :
    DB -> Z -> string -> list AccountRole -> option Account;
  selectAccountsByIdentifier : DB -> string -> list Account;
  selectAccountFromExternalAccount : DB -> Z -> option Account;
  selectAllTransactionsFromAccounts :
    DB -> list Z -> Z -> list Transaction;
}.

(** [UPDATE accounts SET balance = balance + by WHERE id = ...]: no row,
    no change. *)
Definition addBalance (id by_ : Z) (d : DB) : DB :=
  mkDB (alter (fun r => mkAccountRow (row_ownerIdentifier r) (row_balance r + by_))
              id (accounts d))
       (sharedAccounts d) (externalAccounts d) (transactions d) (cash d).

Definition addCash (identifier : string) (by_ : Z) (d : DB) : DB :=
  mkDB (accounts d) (sharedAccounts d) (externalAccounts d) (transactions d)
       (alter (fun a => a + by_) identifier (cash d)).

(** Modelled from the spec: [TransactionDB.create] of transaction.db, which
    appends one row to the append-only ledger.  This is the row it appends
    for an input at time [now]. *)
Definition newTransaction (d : DB) (now : Z) (i : TransactionInput) : Transaction :=
  mkTransaction (Z.of_nat (length (transactions d)) + 1)
                (in_amount i) (in_message i) (in_toAccount i) (in_fromAccount i)
                (in_type i) (Some now).

(** Modelled from the spec: the ledger insert of [TransactionDB.create]. *)
Definition insertTransaction (t : Transaction) (d : DB) : DB :=
  mkDB (accounts d) (sharedAccounts d) (externalAccounts d)
       (transactions d ++ [t]) (cash d).

(** Modelled from the spec: the role check of
    [AccountDB.getAuthorizedSharedAccountById] of account.db: the player
    holds one of the roles on the shared account. *)
Definition hasRole (d : DB) (id : Z) (identifier : string)
    (roles : list AccountRole) : bool :=
  existsb (fun g => bool_decide (sh_accountId g = id)
                    && bool_decide (sh_user g = identifier)
                    && bool_decide (sh_role g ∈ roles))
          (sharedAccounts d).

(** Modelled from the spec: the account filter of
    [TransactionDB.getAllTransactionsFromAccounts] of transaction.db: a
    transaction belongs to an account that is its source or its
    destination. *)
Definition touches (accountIds : list Z) (t : Transaction) : bool :=
  let among (a : option Account) :=
    match a with
    | Some x => bool_decide (acc_id x ∈ accountIds)
    | None => false
    end in
  among (tx_toAccount t) || among (tx_fromAccount t).

(** Modelled from the spec: the date filter of
    [TransactionDB.getAllTransactionsFromAccounts]. *)
Definition since (from : Z) (t : Transaction) : bool :=
  match tx_createdAt t with
  | Some c => bool_decide (from <= c)
  | None => false
  end.

(** Modelled from the spec: the queries of account.db, transaction.db and
    externalAccount.service, which are not among the sources.  An account
    is owned by the player in its owner column and shared with the players
    holding a grant on it; an external account names an account of this
    store. *)
Definition storeQueries : Queries := {|
  selectAccount d id := accountInstance id <$> accounts d !! id;
  selectAuthorizedAccount d id identifier :=
    match accounts d !! id with
    | Some r =>
        if bool_decide (row_ownerIdentifier r = identifier)
        then Some (accountInstance id r) else None
    | None => None
    end;
  selectAuthorizedSharedAccount d id identifier roles :=
    if hasRole d id identifier roles
    then accountInstance id <$> accounts d !! id else None;
  selectAccountsByIdentifier d identifier :=
    map (fun kr => accountInstance kr.1 kr.2)
        (filter (fun kr => row_ownerIdentifier kr.2 = identifier)
                (map_to_list (accounts d)));
  selectAccountFromExternalAccount d id :=
    match externalAccounts d !! id with
    | Some k => accountInstance k <$> accounts d !! k
    | None => None
    end;
  selectAllTransactionsFromAccounts d accountIds from :=
    List.filter (fun t => touches accountIds t && since from t) (transactions d);
|}.

(** Modelled from the spec: a connected player, as [UserService.getUser]
    of user.service returns it. *)
Record User := mkUser {
  getIdentifier : string;
  getBalance : Z;
}.

(** Modelled from the spec: [MS_ONE_WEEK] of utils/constants, the length of
    the trailing 7-day window in milliseconds. *)
Definition MS_ONE_WEEK : Z := 7 * 24 * 60 * 60 * 1000.

(** ** The environment of the services

    What the services get from outside: the configuration flag
    [config.general.useFrameworkIntegration], the user directory, the clock
    and the date formatting of the runtime, the answers of the queries, and
    which calls to the persistence layer fail (and with what). *)
Class Environment := mkEnvironment {
  useFrameworkIntegration : bool;
  getUser : Z -> User;
  Date_now : Z;
  toDateString : Z -> string;
  queries : Queries;
  fault : Statement -> option Exception;
}.

Section Services.
Context {env : Environment}.

(** A call that reads the store. *)
Definition query {A} (s : Statement) (read : DB -> A) : M A :=
  fun w =>
    match fault s with
    | Some e => (Throw e, w)
    | None => (Ok (read (db w)), w)
    end.

(** A call that writes the store and returns what it wrote.  It is given
    no transaction: it takes effect at once, on its own. *)
Definition execute {A} (s : Statement) (write : DB -> A * DB) : M A :=
  fun w =>
    match fault s with
    | Some e => (Throw e, w)
    | None =>
        let (a, d) := write (db w) in
        (Ok a, mkWorld d (enlisted w) (exportCalls w))
    end.

(** A call that writes the store and is given the handle of the open
    transaction in its options: its write waits for the commit. *)
Definition enlist (s : Statement) (write : DB -> DB) : M unit :=
  fun w =>
    match fault s with
    | Some e => (Throw e, w)
    | None => (Ok tt, mkWorld (db w) (enlisted w ++ [write]) (exportCalls w))
    end.

(** *** AccountDB and ExternalAccountService *)

Definition getAccount (id : Z) : M (option Account) :=
  query (SqlGetAccount id) (fun d => selectAccount queries d id).

Definition getAuthorizedAccountById (id : Z) (identifier : string)
    : M (option Account) :=
  query (SqlGetAuthorizedAccountById id identifier)
        (fun d => selectAuthorizedAccount queries d id identifier).

Definition getAuthorizedSharedAccountById (id : Z) (identifier : string)
    (roles : list AccountRole) : M (option Account) :=
  query (SqlGetAuthorizedSharedAccountById id identifier roles)
        (fun d => selectAuthorizedSharedAccount queries d id identifier roles).

Definition getAccountsByIdentifier (identifier : string) : M (list Account) :=
  query (SqlGetAccountsByIdentifier identifier)
        (fun d => selectAccountsByIdentifier queries d identifier).

Definition getAccountFromExternalAccount (id : Z) : M (option Account) :=
  query (SqlGetAccountFromExternalAccount id)
        (fun d => selectAccountFromExternalAccount queries d id).

(** [account.increment('balance', options)] and its opposite. *)
Definition increment (account : Account) (options : IncrementOptions) : M unit :=
  let s := SqlIncrementBalance (acc_id account) (by_ options) in
  let write := addBalance (acc_id account) (by_ options) in
  match transaction options with
  | Some _ => enlist s write
  | None => execute s (fun d => (tt, write d))
  end.

Definition decrement (account : Account) (options : IncrementOptions) : M unit :=
  let s := SqlDecrementBalance (acc_id account) (by_ options) in
  let write := addBalance (acc_id account) (- by_ options) in
  match transaction options with
  | Some _ => enlist s write
  | None => execute s (fun d => (tt, write d))
  end.

(** *** TransactionDB *)

(** Modelled from the spec: [TransactionDB.create] of transaction.db.  It
    is passed the record alone, and so no transaction. *)
Definition create (input : TransactionInput) : M Transaction :=
  execute (SqlCreateTransaction input)
          (fun d => let t := newTransaction d Date_now input in
                    (t, insertTransaction t d)).

Definition getAllTransactionsFromAccounts (accountIds : list Z) (from : Z)
    : M (list Transaction) :=
  query (SqlGetAllTransactionsFromAccounts accountIds from)
        (fun d => selectAllTransactionsFromAccounts queries d accountIds from).

(** *** Database transactions *)

(** [sequelize.transaction()], called without a callback, opens an
    unmanaged transaction and returns its handle.  A statement runs inside
    the transaction when it is passed the handle in its options, and on its
    own otherwise; nothing is bound implicitly.  The transaction starts
    with no write. *)
Definition sequelize_transaction : M TransactionHandle :=
  fun w =>
    match fault SqlTransaction with
    | Some e => (Throw e, w)
    | None => (Ok unmanaged, mkWorld (db w) [] (exportCalls w))
    end.

(** [t.commit()]: the writes of the transaction take effect, in order. *)
Definition commit (t : TransactionHandle) : M unit :=
  fun w =>
    (Ok tt, mkWorld (fold_left (fun d write => write d) (enlisted w) (db w))
                    [] (exportCalls w)).

(** [t.rollback()]: the writes of the transaction are dropped. *)
Definition rollback (t : TransactionHandle) : M unit :=
  fun w => (Ok tt, mkWorld (db w) [] (exportCalls w)).

(** *** TransactionService *)

(** The [try] block of [handleInternalTransfer]. *)
Definition handleInternalTransfer_try (t : TransactionHandle) (identifier : string)
    (fromAccountId toAccountId amount : Z) (message : string) : M unit :=
  myAccount ← getAuthorizedAccountById fromAccountId identifier;
  sharedAccount ←
    getAuthorizedSharedAccountById fromAccountId identifier [Admin; Owner];
  let fromAccount := nullish myAccount sharedAccount in
  toAccount ← getAccount toAccountId;
  match toAccount, fromAccount with
  | Some toAccount, Some fromAccount =>
      increment toAccount {| by_ := amount; transaction := None |};;
      decrement fromAccount {| by_ := amount; transaction := None |};;
      create {| in_amount := amount;
                in_message := message;
                in_toAccount := Some toAccount;
                in_type := Transfer;
                in_fromAccount := Some fromAccount |};;
      commit t
  | _, _ => throw ServerError_NotFound
  end.

Definition handleInternalTransfer (req : Request TransferData) : M unit :=
  t ← sequelize_transaction;
  let user := getUser (source req) in
  let identifier := getIdentifier user in
  try_catch
    (handleInternalTransfer_try t identifier
       (fromAccountId (data req)) (toAccountId (data req))
       (amount (data req)) (message (data req)))
    (fun e => rollback t;; throw e).

(** The [try] block of [handleExternalTransfer]. *)
Definition handleExternalTransfer_try (t : TransactionHandle)
    (req : Request TransferData)
    : M unit :=
  myAccount ← getAccount (fromAccountId (data req));
  toAccount ← getAccountFromExternalAccount (toAccountId (data req));
  match toAccount, myAccount with
  | Some toAccount, Some myAccount =>
      decrement myAccount {| by_ := amount (data req); transaction := None |};;
      increment toAccount {| by_ := amount (data req); transaction := None |};;
      let data_ (type : TransactionType) :=
        {| in_amount := amount (data req);
           in_message := message (data req);
           in_toAccount := Some toAccount;
           in_fromAccount := Some myAccount;
           in_type := type |} in
      create (data_ Outgoing);;
      create (data_ Incoming);;
      commit t
  | _, _ => throw ServerError_NotFound
  end.

Definition handleExternalTransfer (req : Request TransferData) : M unit :=
  t ← sequelize_transaction;
  try_catch (handleExternalTransfer_try t req)
            (fun e => rollback t;; throw e).

Definition handleTransfer (req : Request TransferData) : M unit :=
  let isExternalTransfer := bool_decide (type (data req) = External) in
  if isExternalTransfer then handleExternalTransfer req
  else handleInternalTransfer req.

Definition handleCreateTransaction (input : TransactionInput) : M Transaction :=
  create input.

(** [new Date(createdAt ?? '').toDateString()]: the date string of the
    runtime's time zone, or that of an invalid date. *)
Definition localeDate (curr : Transaction) : string :=
  match tx_createdAt curr with
  | Some ms => toDateString ms
  | None => "Invalid Date"%string
  end.

(** [curr.getDataValue('amount')]: the amount of the row, as a number. *)
Definition amountOf (curr : Transaction) : Number := toNumber (tx_amount curr).

(** The three callbacks [handleGetHistory] reduces with.  [prev - amount]
    and [prev + amount] are the subtraction and the addition of numbers. *)
Definition expensesStep (prev : Number) (curr : Transaction) : Number :=
  if bool_decide (tx_type curr = Outgoing) then jsSub prev (amountOf curr) else prev.

Definition incomeStep (prev : Number) (curr : Transaction) : Number :=
  if bool_decide (tx_type curr = Incoming) then jsAdd prev (amountOf curr) else prev.

Definition lastWeekStep (prev : gmap string DayTotals) (curr : Transaction)
    : gmap string DayTotals :=
  let isIncoming := bool_decide (tx_type curr = Incoming) in
  let isOutgoing := bool_decide (tx_type curr = Outgoing) in
  let '(income, expenses) :=
    match prev !! localeDate curr with
    | Some day => (day_income day, day_expenses day)
    | None => (jsZero, jsZero)
    end in
  let newIncome := if isIncoming then jsAdd income (amountOf curr) else income in
  let newExpenses := if isOutgoing then jsSub expenses (amountOf curr) else expenses in
  <[localeDate curr := {| day_income := newIncome; day_expenses := newExpenses |}]>
    prev.

(** What [handleGetHistory] computes from the transactions it fetched. *)
Definition history (transactions : list Transaction)
    : GetTransactionHistoryResponse :=
  let expenses := fold_left expensesStep transactions jsZero in
  let income := fold_left incomeStep transactions jsZero in
  let lastWeek := fold_left lastWeekStep transactions ∅ in
  {| resp_income := income;
     resp_lastWeek := lastWeek;
     resp_expenses := expenses |}.

Definition handleGetHistory (req : Request unit)
    : M GetTransactionHistoryResponse :=
  let user := getUser (source req) in
  accounts ← getAccountsByIdentifier (getIdentifier user);
  let from := Date_now - MS_ONE_WEEK in
  let accountIds := map acc_id accounts in
  transactions ← getAllTransactionsFromAccounts accountIds from;
  mret (history transactions).

(** *** CashDB and the exports of the framework integration *)

(** Modelled from the spec: [CashDB.getCashByIdentifier] of cash.db, the
    player's own cash row if there is one. *)
Definition getCashByIdentifier (identifier : string) : M (option Cash) :=
  query (SqlGetCashByIdentifier identifier)
        (fun d => mkCash identifier <$> cash d !! identifier).

(** [cash.increment({ amount })] and [cash.decrement({ amount })]. *)
Definition cash_increment (c : Cash) (by_ : Z) : M unit :=
  execute (SqlIncrementCash (cash_ownerIdentifier c) by_)
          (fun d => (tt, addCash (cash_ownerIdentifier c) by_ d)).

Definition cash_decrement (c : Cash) (by_ : Z) : M unit :=
  execute (SqlDecrementCash (cash_ownerIdentifier c) by_)
          (fun d => (tt, addCash (cash_ownerIdentifier c) (- by_) d)).

Definition exp (call : ExportCall) : M unit :=
  fun w => (Ok tt, mkWorld (db w) (enlisted w) (exportCalls w ++ [call])).

(** *** CashService *)

Definition handleTakeCash (source amount : Z) : M (option Cash) :=
  let user := getUser source in
  let identifier := getIdentifier user in
  if useFrameworkIntegration then
    exp (pefclDepositMoney source amount);;
    mret None
  else
    cashModel ← getCashByIdentifier identifier;
    match cashModel with
    | Some c => cash_decrement c amount
    | None => mret tt
    end;;
    mret cashModel.

Definition handleGiveCash (source amount : Z) : M (option Cash) :=
  let user := getUser source in
  let identifier := getIdentifier user in
  if useFrameworkIntegration then
    exp (pefclWithdrawMoney source amount);;
    mret None
  else
    cashModel ← getCashByIdentifier identifier;
    match cashModel with
    | Some c => cash_increment c amount
    | None => mret tt
    end;;
    mret cashModel.
End Services.

(** ** Vocabulary of the properties *)

Section Vocabulary.
Context {env : Environment}.

(** The balance of the account stored under [id], if there is one. *)
Definition balance (d : DB) (id : Z) : option Z :=
  row_balance <$> accounts d !! id.

(** The identifier of the player behind a request. *)
Definition caller {A} (req : Request A) : string :=
  getIdentifier (getUser (source req)).

(** The two accounts of a transfer, as its handler resolves them on a
    store: source first, then destination. *)
Definition sourceAccount (req : Request TransferData) (d : DB) : option Account :=
  match type (data req) with
  | Internal =>
      nullish
        (selectAuthorizedAccount queries d (fromAccountId (data req)) (caller req))
        (selectAuthorizedSharedAccount queries d (fromAccountId (data req))
           (caller req) [Admin; Owner])
  | External => selectAccount queries d (fromAccountId (data req))
  end.

Definition destinationAccount (req : Request TransferData) (d : DB)
    : option Account :=
  match type (data req) with
  | Internal => selectAccount queries d (toAccountId (data req))
  | External => selectAccountFromExternalAccount queries d (toAccountId (data req))
  end.

(** The account lookups of a transfer all answer (none of them throws),
    and the database transaction begins. *)
Definition lookupsAnswer (req : Request TransferData) : Prop :=
  fault SqlTransaction = None ∧
  match type (data req) with
  | Internal =>
      fault (SqlGetAuthorizedAccountById (fromAccountId (data req)) (caller req))
        = None ∧
      fault (SqlGetAuthorizedSharedAccountById (fromAccountId (data req))
               (caller req) [Admin; Owner]) = None ∧
      fault (SqlGetAccount (toAccountId (data req))) = None
  | External =>
      fault (SqlGetAccount (fromAccountId (data req))) = None ∧
      fault (SqlGetAccountFromExternalAccount (toAccountId (data req))) = None
  end.

(** The [try] block of the handler [handleTransfer] dispatches to, inside
    the transaction [t]. *)
Definition transferBlock (t : TransactionHandle) (req : Request TransferData)
    : M unit :=
  match type (data req) with
  | Internal =>
      handleInternalTransfer_try t (caller req)
        (fromAccountId (data req)) (toAccountId (data req))
        (amount (data req)) (message (data req))
  | External => handleExternalTransfer_try t req
  end.

(** Sums over the transactions of one type, and of one day. *)
Definition sumAmounts (l : list Transaction) : Z :=
  foldr (fun t acc => tx_amount t + acc) 0 l.

Definition ofType (ty : TransactionType) (l : list Transaction)
    : list Transaction :=
  filter (fun t => tx_type t = ty) l.

Definition onDay (day : string) (l : list Transaction) : list Transaction :=
  filter (fun t => localeDate t = day) l.

(** The sum of the magnitudes of the amounts.  While it stays below
    [2 ^ 53] every sum of some of the amounts, in any order, is a safe
    integer ([Number.MAX_SAFE_INTEGER] is [2 ^ 53 - 1]). *)
Definition sumMagnitudes (l : list Transaction) : Z :=
  foldr (fun t acc => Z.abs (tx_amount t) + acc) 0 l.

(** The sum of a weight over a list of transactions, and the sum of a
    quantity over a list of days. *)
Definition total (weight : Transaction -> Z) (l : list Transaction) : Z :=
  foldr (fun t acc => weight t + acc) 0 l.

Definition overDays (quantity : string -> Z) (days : list string) : Z :=
  foldr (fun d acc => quantity d + acc) 0 days.

(** The amounts of a list added to, and subtracted from, a number one
    after the other, from the head of the list on. *)
Definition addAmounts (prev : Number) (l : list Transaction) : Number :=
  fold_left (fun acc t => jsAdd acc (amountOf t)) l prev.

Definition subtractAmounts (prev : Number) (l : list Transaction) : Number :=
  fold_left (fun acc t => jsSub acc (amountOf t)) l prev.

(** A day's totals as the reducer reads them: zero where the day has no
    bucket yet. *)
Definition dayTotals (m : gmap string DayTotals) (day : string) : DayTotals :=
  default (mkDayTotals jsZero jsZero) (m !! day).

(** The transactions [handleGetHistory] fetches: those of the caller's
    accounts since a week ago. *)
Definition fetched (req : Request unit) (d : DB) : list Transaction :=
  selectAllTransactionsFromAccounts queries d
    (map acc_id (selectAccountsByIdentifier queries d (caller req)))
    (Date_now - MS_ONE_WEEK).

(** The history holding the sums of the amounts: of all the fetched
    transactions of a type, and in each bucket of those of its day. *)
Definition historyHoldsSums (req : Request unit) (w : World) : Prop :=
  ∀ h w', handleGetHistory req w = (Ok h, w') →
    resp_expenses h = toNumber (- sumAmounts (ofType Outgoing (fetched req (db w)))) ∧
    resp_income h = toNumber (sumAmounts (ofType Incoming (fetched req (db w)))) ∧
    ∀ day bucket,
      resp_lastWeek h !! day = Some bucket →
      day_income bucket
        = toNumber (sumAmounts (ofType Incoming (onDay day (fetched req (db w))))) ∧
      day_expenses bucket
        = toNumber (- sumAmounts (ofType Outgoing (onDay day (fetched req (db w))))).

(** The two ledger rows of an external transfer with the account
    snapshots in reversed roles. *)
Definition externalRowsReversed (req : Request TransferData) (w : World) : Prop :=
  ∀ w', handleTransfer req w = (Ok tt, w') →
    ∃ out inc,
      (transactions (db w') = transactions (db w) ++ [out; inc] ∨
       transactions (db w') = transactions (db w) ++ [inc; out]) ∧
      tx_type out = Outgoing ∧ tx_type inc = Incoming ∧
      tx_amount out = tx_amount inc ∧ tx_message out = tx_message inc ∧
      tx_fromAccount out = tx_toAccount inc ∧
      tx_toAccount out = tx_fromAccount inc.

(** An internal transfer moving the amount from the source balance to
    the destination balance and writing one [Transfer] row. *)
Definition internalTransferMoves (req : Request TransferData) (w : World) : Prop :=
  ∀ w' fromAccount toAccount sB dB,
    handleTransfer req w = (Ok tt, w') →
    sourceAccount req (db w) = Some fromAccount →
    destinationAccount req (db w) = Some toAccount →
    balance (db w) (acc_id fromAccount) = Some sB →
    balance (db w) (acc_id toAccount) = Some dB →
    balance (db w') (acc_id fromAccount) = Some (sB - amount (data req)) ∧
    balance (db w') (acc_id toAccount) = Some (dB + amount (data req)) ∧
    ∃ row,
      transactions (db w') = transactions (db w) ++ [row] ∧
      tx_type row = Transfer ∧
      tx_fromAccount row = Some fromAccount ∧
      tx_toAccount row = Some toAccount.

(** Taking cash going to the integration's withdraw export and giving
    cash to its deposit export. *)
Definition takeWithdrawsGiveDeposits (source amount : Z) (w : World) : Prop :=
  useFrameworkIntegration = true →
  handleTakeCash source amount w
    = (Ok None,
       mkWorld (db w) (enlisted w)
               (exportCalls w ++ [pefclWithdrawMoney source amount])) ∧
  handleGiveCash source amount w
    = (Ok None,
       mkWorld (db w) (enlisted w)
               (exportCalls w ++ [pefclDepositMoney source amount])).

(** A failed transfer leaving the account balances and the ledger as they
    were before the call. *)
Definition failureRollsBack (req : Request TransferData) (w : World) : Prop :=
  ∀ e w', handleTransfer req w = (Throw e, w') →
    accounts (db w') = accounts (db w) ∧
    transactions (db w') = transactions (db w).
End Vocabulary.

(** ** A small bank

    Alice owns account 1 (balance 500), Bob account 2 (balance 200); the
    external account 7 stands for Bob's account; Alice has 30 in cash.
    Session 1 is Alice, every other session is Bob. *)

Definition bank : DB := {|
  accounts := <[1 := mkAccountRow "alice" 500]> (<[2 := mkAccountRow "bob" 200]> ∅);
  sharedAccounts := [];
  externalAccounts := {[ 7 := 2 ]};
  transactions := [];
  cash := {[ "alice"%string := 30 ]};
|}.

Definition atBank : World := {| db := bank; enlisted := []; exportCalls := [] |}.

Definition players (source : Z) : User :=
  if bool_decide (source = 1) then mkUser "alice" 0 else mkUser "bob" 0.

(** Days are numbered from the epoch; the clock stands at the start of
    day 100. *)
Definition dayString (ms : Z) : string :=
  if bool_decide (ms `div` 86400000 = 99) then "Fri Apr 10 1970"
  else "Sat Apr 11 1970".

Definition localLedger : Environment := {|
  useFrameworkIntegration := false;
  getUser := players;
  Date_now := 8640000000;
  toDateString := dayString;
  queries := storeQueries;
  fault := fun _ => None;
|}.

Definition withIntegration : Environment := {|
  useFrameworkIntegration := true;
  getUser := players;
  Date_now := 8640000000;
  toDateString := dayString;
  queries := storeQueries;
  fault := fun _ => None;
|}.

(** The ledger insert fails; everything else works. *)
Definition ledgerDown : Environment := {|
  useFrameworkIntegration := false;
  getUser := players;
  Date_now := 8640000000;
  toDateString := dayString;
  queries := storeQueries;
  fault := fun s =>
    match s with
    | SqlCreateTransaction _ => Some (DatabaseError "ER_DATA_TOO_LONG")
    | _ => None
    end;
|}.

Definition aliceToBob : Request TransferData :=
  mkRequest 1 (mkTransferData 1 2 100 "rent" Internal).

Definition aliceToHerself : Request TransferData :=
  mkRequest 1 (mkTransferData 1 1 100 "savings" Internal).

Definition aliceToExternal : Request TransferData :=
  mkRequest 1 (mkTransferData 1 7 50 "invoice" External).

Definition aliceToNobody : Request TransferData :=
  mkRequest 1 (mkTransferData 1 9 100 "rent" Internal).

Definition aliceFromBobs : Request TransferData :=
  mkRequest 1 (mkTransferData 2 1 40 "refund" Internal).

Definition alice : Account := mkAccount 1 "alice" 500.
Definition bob : Account := mkAccount 2 "bob" 200.

(** The same bank after Alice's 100 to Bob ... *)
Definition bankAfterTransfer : DB := {|
  accounts := <[1 := mkAccountRow "alice" 400]> (<[2 := mkAccountRow "bob" 300]> ∅);
  sharedAccounts := [];
  externalAccounts := {[ 7 := 2 ]};
  transactions :=
    [mkTransaction 1 100 "rent" (Some bob) (Some alice) Transfer (Some 8640000000)];
  cash := {[ "alice"%string := 30 ]};
|}.

(** ... with the balances moved but the ledger row not yet written ... *)
Definition bankMidTransfer : DB := {|
  accounts := <[1 := mkAccountRow "alice" 400]> (<[2 := mkAccountRow "bob" 300]> ∅);
  sharedAccounts := [];
  externalAccounts := {[ 7 := 2 ]};
  transactions := [];
  cash := {[ "alice"%string := 30 ]};
|}.

(** ... after Alice's 100 to herself ... *)
Definition bankAfterSelfTransfer : DB := {|
  accounts := <[1 := mkAccountRow "alice" 500]> (<[2 := mkAccountRow "bob" 200]> ∅);
  sharedAccounts := [];
  externalAccounts := {[ 7 := 2 ]};
  transactions :=
    [mkTransaction 1 100 "savings" (Some alice) (Some alice) Transfer
       (Some 8640000000)];
  cash := {[ "alice"%string := 30 ]};
|}.

(** ... and after her 50 to the external account 7. *)
Definition bankAfterExternal : DB := {|
  accounts := <[1 := mkAccountRow "alice" 450]> (<[2 := mkAccountRow "bob" 250]> ∅);
  sharedAccounts := [];
  externalAccounts := {[ 7 := 2 ]};
  transactions :=
    [mkTransaction 1 50 "invoice" (Some bob) (Some alice) Outgoing (Some 8640000000);
     mkTransaction 2 50 "invoice" (Some bob) (Some alice) Incoming (Some 8640000000)];
  cash := {[ "alice"%string := 30 ]};
|}.

(** A bank where Alice is an admin of Bob's account, before and after she
    sends 40 from it to her own. *)
Definition sharedBank : DB := {|
  accounts := <[1 := mkAccountRow "alice" 500]> (<[2 := mkAccountRow "bob" 200]> ∅);
  sharedAccounts := [mkSharedAccount 2 "alice" Admin];
  externalAccounts := ∅;
  transactions := [];
  cash := ∅;
|}.

Definition sharedBankAfter : DB := {|
  accounts := <[1 := mkAccountRow "alice" 540]> (<[2 := mkAccountRow "bob" 160]> ∅);
  sharedAccounts := [mkSharedAccount 2 "alice" Admin];
  externalAccounts := ∅;
  transactions :=
    [mkTransaction 1 40 "refund" (Some alice) (Some bob) Transfer (Some 8640000000)];
  cash := ∅;
|}.

(** A week of Alice's account: on day 99 she pays 50 and receives 20, on
    day 100 she moves 100 to Bob and pays 5. *)
Definition paid50 : Transaction :=
  mkTransaction 1 50 "shop" None (Some alice) Outgoing (Some 8553600000).
Definition received20 : Transaction :=
  mkTransaction 2 20 "salary" (Some alice) None Incoming (Some 8553600001).
Definition moved100 : Transaction :=
  mkTransaction 3 100 "rent" (Some bob) (Some alice) Transfer (Some 8640000000).
Definition paid5 : Transaction :=
  mkTransaction 4 5 "toll" None (Some alice) Outgoing (Some 8640000000).

Definition bankWithHistory : DB := {|
  accounts := <[1 := mkAccountRow "alice" 500]> (<[2 := mkAccountRow "bob" 200]> ∅);
  sharedAccounts := [];
  externalAccounts := ∅;
  transactions := [paid50; received20; moved100; paid5];
  cash := ∅;
|}.

Definition weekOfAlice : GetTransactionHistoryResponse := {|
  resp_income := toNumber 20;
  resp_lastWeek :=
    <["Fri Apr 10 1970"%string := mkDayTotals (toNumber 20) (toNumber (-50))]>
      (<["Sat Apr 11 1970"%string := mkDayTotals jsZero (toNumber (-5))]> ∅);
  resp_expenses := toNumber (-55);
|}.

(** A week in which Alice receives [2 ^ 53], then 1, then 1 again, all on
    day 99.  A double has 53 bits: [2 ^ 53 + 1] is not one, and the
    nearest doubles are [2 ^ 53] and [2 ^ 53 + 2]. *)
Definition received2p53 : Transaction :=
  mkTransaction 1 (2 ^ 53) "sale" (Some alice) None Incoming (Some 8553600000).
Definition received1 : Transaction :=
  mkTransaction 2 1 "tip" (Some alice) None Incoming (Some 8553600001).
Definition received1Again : Transaction :=
  mkTransaction 3 1 "tip" (Some alice) None Incoming (Some 8553600002).

Definition bankOfLargeSums : DB := {|
  accounts := <[1 := mkAccountRow "alice" 500]> (<[2 := mkAccountRow "bob" 200]> ∅);
  sharedAccounts := [];
  externalAccounts := ∅;
  transactions := [received2p53; received1; received1Again];
  cash := ∅;
|}.

Definition weekOfLargeSums : GetTransactionHistoryResponse := {|
  resp_income := toNumber (2 ^ 53);
  resp_lastWeek :=
    {[ "Fri Apr 10 1970"%string := mkDayTotals (toNumber (2 ^ 53)) jsZero ]};
  resp_expenses := jsZero;
|}.

(** ** The rest of the services *)

(** The payload of a listing request ([GetTransactionsInput]). *)
Record GetTransactionsInput := mkGetTransactionsInput {
  page_limit : Z;
  page_offset : Z;
}.

(** A transaction as [handleGetMyTransactions] returns it: the [toJSON()]
    of the row once its [createdAt] was set to a display string. *)
Record ListedTransaction := mkListedTransaction {
  listed_id : Z;
  listed_amount : Z;
  listed_message : string;
  listed_toAccount : option Account;
  listed_fromAccount : option Account;
  listed_type : TransactionType;
  listed_createdAt : string;
}.

(** The answer of [handleGetMyTransactions] ([GetTransactionsResponse]). *)
Record GetTransactionsResponse := mkGetTransactionsResponse {
  list_total : Z;
  list_offset : Z;
  list_limit : Z;
  list_transactions : list ListedTransaction;
}.

(** The two calls to the persistence layer that only the listing makes. *)
Inductive ListingStatement :=
| SqlGetTransactionFromAccounts (input : GetTransactionsInput) (accountIds : list Z)
| SqlGetTotalTransactionsFromAccounts (accountIds : list Z).

(** What the listing gets from outside: the date formatting of the runtime
    ([Date.prototype.toLocaleString]), the answers of the two queries of
    [TransactionDB] it makes, and which of them fail. *)
Class Listing := mkListing {
  toLocaleString : Z -> string;
  selectTransactionFromAccounts :
    DB -> GetTransactionsInput -> list Z -> list Transaction;
  selectTotalTransactionsFromAccounts : DB -> list Z -> Z;
  listingFault : ListingStatement -> option Exception;
}.

Section MoreServices.
Context {env : Environment} {listing : Listing}.

Definition listingQuery {A} (s : ListingStatement) (read : DB -> A) : M A :=
  fun w =>
    match listingFault s with
    | Some e => (Throw e, w)
    | None => (Ok (read (db w)), w)
    end.

Definition getTransactionFromAccounts (input : GetTransactionsInput)
    (accountIds : list Z) : M (list Transaction) :=
  listingQuery (SqlGetTransactionFromAccounts input accountIds)
               (fun d => selectTransactionFromAccounts d input accountIds).

Definition getTotalTransactionsFromAccounts (accountIds : list Z) : M Z :=
  listingQuery (SqlGetTotalTransactionsFromAccounts accountIds)
               (fun d => selectTotalTransactionsFromAccounts d accountIds).

(** [new Date(createdAt ?? '').toLocaleString()]. *)
Definition localeString (t : Transaction) : string :=
  match tx_createdAt t with
  | Some ms => toLocaleString ms
  | None => "Invalid Date"%string
  end.

(** [transaction.setDataValue('createdAt', date.toLocaleString())]: the
    instance is changed in memory, the row is not saved. *)
Definition setCreatedAt (t : Transaction) : ListedTransaction :=
  mkListedTransaction (tx_id t) (tx_amount t) (tx_message t) (tx_toAccount t)
                      (tx_fromAccount t) (tx_type t) (localeString t).

Definition toJSON (t : ListedTransaction) : ListedTransaction := t.

Definition getMyTransactions (req : Request GetTransactionsInput)
    : M GetTransactionsResponse :=
  let user := getUser (source req) in
  accounts ← getAccountsByIdentifier (getIdentifier user);
  let accountIds := map acc_id accounts in
  transactions ← getTransactionFromAccounts (data req) accountIds;
  total ← getTotalTransactionsFromAccounts accountIds;
  let mappedTransactions := map setCreatedAt transactions in
  mret {| list_total := total;
          list_offset := page_offset (data req);
          list_limit := page_limit (data req);
          list_transactions := mappedTransactions |}.

Definition handleGetMyTransactions (req : Request GetTransactionsInput)
    : M GetTransactionsResponse :=
  data_ ← getMyTransactions req;
  mret {| list_total := list_total data_;
          list_offset := list_offset data_;
          list_limit := list_limit data_;
          list_transactions := map toJSON (list_transactions data_) |}.

(** The rest of [CashService]. *)
Definition getCashModel (source : Z) : M (option Cash) :=
  let user := getUser source in
  getCashByIdentifier (getIdentifier user).

Definition getMyCash (source : Z) : M Z :=
  let user := getUser source in
  if useFrameworkIntegration then mret (getBalance user)
  else
    cashModel ← getCashModel source;
    mret (match cashModel with
          | Some c => cash_amount c
          | None => 0
          end).

(** The sum of all balances of a store. *)
Definition totalBalance (d : DB) : Z :=
  map_fold (fun _ r acc => row_balance r + acc) 0 (accounts d).

(** The incomes, and the expenses, of the days of a history added up in
    the order of a list of days, as a reader of the week's buckets does. *)

Definition sumDayIncome (m : gmap string DayTotals) (days : list string) : Number :=
  fold_left (fun acc day => jsAdd acc (day_income (dayTotals m day))) days jsZero.

Definition sumDayExpenses (m : gmap string DayTotals) (days : list string) : Number :=
  fold_left (fun acc day => jsAdd acc (day_expenses (dayTotals m day))) days jsZero.
End MoreServices.

(** Modelled from the spec: the paginated listing of transaction.db, over
    the transactions of the given accounts: [limit] rows from [offset] on,
    and the count of them all. *)
Definition pagedLedger : Listing := {|
  toLocaleString := fun ms => String.append (dayString ms) ", 12:00:00 AM";
  selectTransactionFromAccounts d input accountIds :=
    take (Z.to_nat (page_limit input))
         (drop (Z.to_nat (page_offset input))
               (List.filter (touches accountIds) (transactions d)));
  selectTotalTransactionsFromAccounts d accountIds :=
    Z.of_nat (length (List.filter (touches accountIds) (transactions d)));
  listingFault := fun _ => None;
|}.

(** The bank with Alice's cash taken away from the table. *)
Definition bankNoCash : DB := {|
  accounts := <[1 := mkAccountRow "alice" 500]> (<[2 := mkAccountRow "bob" 200]> ∅);
  sharedAccounts := [];
  externalAccounts := {[ 7 := 2 ]};
  transactions := [];
  cash := ∅;
|}.

(** The balance updates fail; everything else works. *)
Definition debitDown : Environment := {|
  useFrameworkIntegration := false;
  getUser := players;
  Date_now := 8640000000;
  toDateString := dayString;
  queries := storeQueries;
  fault := fun s =>
    match s with
    | SqlDecrementBalance _ _ => Some (DatabaseError "ER_LOCK_DEADLOCK")
    | _ => None
    end;
|}.

(** Nothing can be started. *)
Definition storeDown : Environment := {|
  useFrameworkIntegration := false;
  getUser := players;
  Date_now := 8640000000;
  toDateString := dayString;
  queries := storeQueries;
  fault := fun _ => Some (DatabaseError "ECONNREFUSED");
|}.

(** ** Running the monad *)

Lemma world_eta (w : World) : mkWorld (db w) (enlisted w) (exportCalls w) = w.
Proof. by destruct w. Qed.

Section Steps.
Context {env : Environment}.

Lemma bind_run {A B} (m : M A) (k : A → M B) (w : World) :
  (m ≫= k) w =
  match m w with
  | (Ok a, w1) => k a w1
  | (Throw e, w1) => (Throw e, w1)
  end.
Proof. reflexivity. Qed.

Lemma ret_run {A} (a : A) (w : World) : (mret a : M A) w = (Ok a, w).
Proof. reflexivity. Qed.

Lemma query_run {A} (s : Statement) (read : DB → A) (w : World) :
  query s read w =
  match fault s with
  | Some e => (Throw e, w)
  | None => (Ok (read (db w)), w)
  end.
Proof. reflexivity. Qed.

Lemma execute_run (s : Statement) (write : DB → DB) (w : World) :
  execute s (fun d => (tt, write d)) w =
  match fault s with
  | Some e => (Throw e, w)
  | None => (Ok tt, mkWorld (write (db w)) (enlisted w) (exportCalls w))
  end.
Proof. unfold execute. by destruct (fault s). Qed.

Lemma create_run (input : TransactionInput) (w : World) :
  create input w =
  match fault (SqlCreateTransaction input) with
  | Some e => (Throw e, w)
  | None =>
      (Ok (newTransaction (db w) Date_now input),
       mkWorld (insertTransaction (newTransaction (db w) Date_now input) (db w))
               (enlisted w) (exportCalls w))
  end.
Proof. unfold create, execute. by destruct (fault _). Qed.
End Steps.

(** Unfolds a handler down to its calls to the persistence layer. *)
Ltac handlers :=
  unfold handleTransfer, handleInternalTransfer, handleExternalTransfer,
    handleInternalTransfer_try, handleExternalTransfer_try,
    handleGetHistory, handleTakeCash, handleGiveCash,
    try_catch, sequelize_transaction, commit, rollback, throw, exp,
    getAccount, getAuthorizedAccountById, getAuthorizedSharedAccountById,
    getAccountsByIdentifier, getAccountFromExternalAccount,
    getAllTransactionsFromAccounts, getCashByIdentifier,
    increment, decrement, cash_increment, cash_decrement in *.

(** Runs the unfolded steps, splitting on whether each call fails. *)
Ltac run :=
  repeat first
    [ progress rewrite ?bind_run, ?ret_run, ?query_run, ?execute_run, ?create_run in *
    | progress simpl in *
    | match goal with
      | H : context [match fault ?s with _ => _ end] |- _ =>
          destruct (fault s) eqn:?
      | |- context [match fault ?s with _ => _ end] =>
          destruct (fault s) eqn:?
      end
    | progress simplify_eq ].

(** Runs the steps whose outcome the hypotheses give. *)
Ltac run_known :=
  repeat first
    [ progress rewrite ?bind_run, ?ret_run, ?query_run, ?execute_run, ?create_run
    | progress simpl
    | match goal with
      | H : fault _ = _ |- _ => rewrite H
      | H : _ = Some _ |- _ => rewrite H
      | H : _ = None |- _ => rewrite H
      end ].

(** ** Balances *)

Lemma balance_addBalance (d : DB) (id by_ k : Z) :
  balance (addBalance id by_ d) k =
  if decide (id = k) then (fun b => b + by_) <$> balance d k else balance d k.
Proof.
  unfold balance, addBalance; simpl. rewrite lookup_alter.
  case_decide; [subst|done]. by destruct (accounts d !! k).
Qed.

Lemma balance_insertTransaction (d : DB) (t : Transaction) (k : Z) :
  balance (insertTransaction t d) k = balance d k.
Proof. reflexivity. Qed.

(** ** Transfers that succeed *)

Section Transfers.
Context {env : Environment}.

(** The world an internal transfer leaves when it succeeds. *)
Lemma handleInternalTransfer_ok (req : Request TransferData) (w w' : World) :
  handleInternalTransfer req w = (Ok tt, w') →
  ∃ fromAccount toAccount,
    nullish
      (selectAuthorizedAccount queries (db w) (fromAccountId (data req)) (caller req))
      (selectAuthorizedSharedAccount queries (db w) (fromAccountId (data req))
         (caller req) [Admin; Owner]) = Some fromAccount ∧
    selectAccount queries (db w) (toAccountId (data req)) = Some toAccount ∧
    let d := addBalance (acc_id fromAccount) (- amount (data req))
               (addBalance (acc_id toAccount) (amount (data req)) (db w)) in
    let row :=
      newTransaction d Date_now
        {| in_amount := amount (data req);
           in_message := message (data req);
           in_toAccount := Some toAccount;
           in_fromAccount := Some fromAccount;
           in_type := Transfer |} in
    w' = mkWorld (insertTransaction row d) [] (exportCalls w).
Proof.
  unfold caller. handlers. intros Hrun. run.
  destruct (selectAccount _ _ _) as [toAccount|] eqn:Hto; run;
    destruct (nullish _ _) as [fromAccount|] eqn:Hfrom; run.
  by exists fromAccount, toAccount.
Qed.

(** The world an external transfer leaves when it succeeds. *)
Lemma handleExternalTransfer_ok (req : Request TransferData) (w w' : World) :
  handleExternalTransfer req w = (Ok tt, w') →
  ∃ myAccount toAccount,
    selectAccount queries (db w) (fromAccountId (data req)) = Some myAccount ∧
    selectAccountFromExternalAccount queries (db w) (toAccountId (data req))
      = Some toAccount ∧
    let d := addBalance (acc_id toAccount) (amount (data req))
               (addBalance (acc_id myAccount) (- amount (data req)) (db w)) in
    let data_ ty :=
      {| in_amount := amount (data req);
         in_message := message (data req);
         in_toAccount := Some toAccount;
         in_fromAccount := Some myAccount;
         in_type := ty |} in
    let out := newTransaction d Date_now (data_ Outgoing) in
    let inc := newTransaction (insertTransaction out d) Date_now (data_ Incoming) in
    w' = mkWorld (insertTransaction inc (insertTransaction out d)) []
               (exportCalls w).
Proof.
  handlers. intros Hrun. run.
  destruct (selectAccountFromExternalAccount _ _ _) as [toAccount|] eqn:Hto; run;
    destruct (selectAccount _ _ _) as [myAccount|] eqn:Hmy; run.
  by exists myAccount, toAccount.
Qed.

Lemma handleTransfer_internal (req : Request TransferData) :
  type (data req) = Internal → handleTransfer req = handleInternalTransfer req.
Proof. unfold handleTransfer. by intros ->. Qed.

Lemma handleTransfer_external (req : Request TransferData) :
  type (data req) = External → handleTransfer req = handleExternalTransfer req.
Proof. unfold handleTransfer. by intros ->. Qed.

(** C1 (amended).  An external transfer that succeeds appends exactly two
    rows to the ledger, an [Outgoing] one followed by an [Incoming] one.
    Both carry the amount and the message of the request, and both carry
    the same snapshots in the same roles: the initiator's account as
    [fromAccount] and the external counterpart as [toAccount]. *)
Theorem handleExternalTransfer_two_rows
    (req : Request TransferData) (w w' : World) :
  type (data req) = External →
  handleTransfer req w = (Ok tt, w') →
  ∃ out inc myAccount toAccount,
    sourceAccount req (db w) = Some myAccount ∧
    destinationAccount req (db w) = Some toAccount ∧
    transactions (db w') = transactions (db w) ++ [out; inc] ∧
    tx_type out = Outgoing ∧ tx_type inc = Incoming ∧
    tx_amount out = amount (data req) ∧ tx_amount inc = amount (data req) ∧
    tx_message out = message (data req) ∧ tx_message inc = message (data req) ∧
    tx_fromAccount out = Some myAccount ∧ tx_fromAccount inc = Some myAccount ∧
    tx_toAccount out = Some toAccount ∧ tx_toAccount inc = Some toAccount.
Proof.
  intros Hty Hrun. rewrite (handleTransfer_external _ Hty) in Hrun.
  apply handleExternalTransfer_ok in Hrun
    as (myAccount & toAccount & Hmy & Hto & ->).
  eexists _, _, myAccount, toAccount.
  unfold sourceAccount, destinationAccount. rewrite Hty.
  split_and!; [done | done | by simpl; rewrite <- app_assoc | done..].
Qed.

(** C3 (amended).  An internal transfer that succeeds appends exactly one
    row of type [Transfer] to the ledger, carrying the snapshots of the
    source and of the destination account.  When the two accounts differ,
    a source balance [sB] becomes [sB - a] and a destination balance [dB]
    becomes [dB + a]; when they are one and the same account, its balance
    is what it was. *)
Theorem handleInternalTransfer_moves_amount
    (req : Request TransferData) (w w' : World) :
  type (data req) = Internal →
  handleTransfer req w = (Ok tt, w') →
  ∃ fromAccount toAccount row,
    sourceAccount req (db w) = Some fromAccount ∧
    destinationAccount req (db w) = Some toAccount ∧
    transactions (db w') = transactions (db w) ++ [row] ∧
    tx_type row = Transfer ∧
    tx_amount row = amount (data req) ∧
    tx_message row = message (data req) ∧
    tx_fromAccount row = Some fromAccount ∧
    tx_toAccount row = Some toAccount ∧
    (acc_id fromAccount ≠ acc_id toAccount →
     ∀ sB dB,
       balance (db w) (acc_id fromAccount) = Some sB →
       balance (db w) (acc_id toAccount) = Some dB →
       balance (db w') (acc_id fromAccount) = Some (sB - amount (data req)) ∧
       balance (db w') (acc_id toAccount) = Some (dB + amount (data req))) ∧
    (acc_id fromAccount = acc_id toAccount →
     ∀ sB,
       balance (db w) (acc_id fromAccount) = Some sB →
       balance (db w') (acc_id fromAccount) = Some sB).
Proof.
  intros Hty Hrun. rewrite (handleTransfer_internal _ Hty) in Hrun.
  apply handleInternalTransfer_ok in Hrun
    as (fromAccount & toAccount & Hfrom & Hto & ->).
  exists fromAccount, toAccount. eexists.
  unfold sourceAccount, destinationAccount. rewrite Hty.
  split_and!; try done; simpl.
  - intros Hne sB dB HsB HdB.
    rewrite !balance_insertTransaction, !balance_addBalance.
    repeat case_decide; try congruence.
    rewrite HsB, HdB. simpl. split; f_equal; lia.
  - intros Heq sB HsB.
    rewrite !balance_insertTransaction, !balance_addBalance. rewrite <- Heq.
    repeat case_decide; try congruence.
    rewrite HsB. simpl. f_equal; lia.
Qed.

(** C8.  The source of an internal transfer.  In every run that succeeds,
    the account that is debited and recorded as the source of the ledger
    row is the one the directly-owned lookup returned, whenever it returned
    one, and otherwise the one the shared lookup returned for the roles
    [Admin] and [Owner].  And when no call to the persistence layer fails
    and the destination is found, the transfer does run: it debits the
    directly-owned account whenever that lookup returns one, whatever the
    shared lookup returns; it debits the shared account when only the
    shared lookup returns one; it throws [ServerError_NotFound] when
    neither does. *)
Theorem handleInternalTransfer_source_precedence
    (req : Request TransferData) (w : World) :
  type (data req) = Internal →
  let owned :=
    selectAuthorizedAccount queries (db w) (fromAccountId (data req)) (caller req) in
  let shared :=
    selectAuthorizedSharedAccount queries (db w) (fromAccountId (data req))
      (caller req) [Admin; Owner] in
  (∀ w', handleTransfer req w = (Ok tt, w') →
     ∃ fromAccount toAccount row,
       match owned with
       | Some myAccount => fromAccount = myAccount
       | None => shared = Some fromAccount
       end ∧
       tx_fromAccount row = Some fromAccount ∧
       db w' = insertTransaction row
                 (addBalance (acc_id fromAccount) (- amount (data req))
                    (addBalance (acc_id toAccount) (amount (data req)) (db w)))) ∧
  ((∀ s, fault s = None) →
   ∀ toAccount,
     selectAccount queries (db w) (toAccountId (data req)) = Some toAccount →
     let debiting (fromAccount : Account) : World :=
       let d := addBalance (acc_id fromAccount) (- amount (data req))
                  (addBalance (acc_id toAccount) (amount (data req)) (db w)) in
       let row :=
         newTransaction d Date_now
           {| in_amount := amount (data req);
              in_message := message (data req);
              in_toAccount := Some toAccount;
              in_fromAccount := Some fromAccount;
              in_type := Transfer |} in
       mkWorld (insertTransaction row d) [] (exportCalls w) in
     match owned, shared with
     | Some myAccount, _ => handleTransfer req w = (Ok tt, debiting myAccount)
     | None, Some sharedAccount =>
         handleTransfer req w = (Ok tt, debiting sharedAccount)
     | None, None =>
         handleTransfer req w
         = (Throw ServerError_NotFound, mkWorld (db w) [] (exportCalls w))
     end).
Proof.
  intros Hty owned shared. split.
  - intros w' Hrun. rewrite (handleTransfer_internal _ Hty) in Hrun.
    apply handleInternalTransfer_ok in Hrun
      as (fromAccount & toAccount & Hfrom & Hto & ->).
    exists fromAccount, toAccount. eexists.
    split_and!; [| | reflexivity]; [| reflexivity].
    subst owned shared.
    destruct (selectAuthorizedAccount _ _ _ _); simpl in Hfrom; congruence.
  - intros Hnone toAccount Hto. rewrite (handleTransfer_internal _ Hty).
    subst owned shared. unfold caller. handlers.
    destruct (selectAuthorizedAccount _ _ _ _) as [myAccount|] eqn:Hmy;
      [|destruct (selectAuthorizedSharedAccount _ _ _ _ _)
          as [sharedAccount|] eqn:Hshared];
      repeat (rewrite ?Hnone; run_known); done.
Qed.
End Transfers.

(** ** Transfers that fail *)

Section Failures.
Context {env : Environment}.

(** A statement that is passed the handle is undone by a rollback and
    takes effect at the commit. *)
Lemma rollback_drops_enlisted
    (account : Account) (n : Z) (t : TransactionHandle) (w : World) :
  fault (SqlIncrementBalance (acc_id account) n) = None →
  (increment account {| by_ := n; transaction := Some t |};; rollback t) w
  = (Ok tt, mkWorld (db w) [] (exportCalls w)).
Proof.
  intros Hfault. unfold increment, enlist, rollback; simpl.
  by rewrite bind_run, Hfault.
Qed.

Lemma commit_applies_enlisted
    (account : Account) (n : Z) (t : TransactionHandle) (w : World) :
  fault (SqlIncrementBalance (acc_id account) n) = None →
  enlisted w = [] →
  (increment account {| by_ := n; transaction := Some t |};; commit t) w
  = (Ok tt, mkWorld (addBalance (acc_id account) n (db w)) [] (exportCalls w)).
Proof.
  intros Hfault Hnone. unfold increment, enlist, commit; simpl.
  by rewrite bind_run, Hfault, Hnone.
Qed.

(** The [try] block of a transfer makes no call to the framework
    integration. *)
Lemma transferBlock_exportCalls
    (t : TransactionHandle) (req : Request TransferData) (w w1 : World)
    (r : Result unit) :
  transferBlock t req w = (r, w1) → exportCalls w1 = exportCalls w.
Proof.
  unfold transferBlock. destruct (type (data req)); handlers; intros Hrun; run;
    repeat match goal with
      | H : context [match ?o with Some _ => _ | None => _ end] |- _ =>
          destruct o eqn:?; run
      end; done.
Qed.

(** The [catch] clause: what the [try] block throws is thrown again, out of
    the store as the block left it, since the block's statements ran
    outside the transaction that is rolled back. *)
Lemma handleTransfer_catch
    (req : Request TransferData) (w w1 : World) (e : Exception) :
  fault SqlTransaction = None →
  transferBlock unmanaged req (mkWorld (db w) [] (exportCalls w)) = (Throw e, w1) →
  handleTransfer req w = (Throw e, mkWorld (db w1) [] (exportCalls w)).
Proof.
  intros Hbegin Hblock.
  pose proof (transferBlock_exportCalls _ _ _ _ _ Hblock) as Hcalls.
  revert Hblock. unfold transferBlock, handleTransfer, caller.
  destruct (type (data req)); simpl; intros Hblock;
    unfold handleInternalTransfer, handleExternalTransfer, sequelize_transaction,
      try_catch, rollback, throw;
    rewrite !bind_run, Hbegin, Hblock; simpl;
    rewrite bind_run; simpl; by rewrite Hcalls.
Qed.

(** With an account missing, the [try] block throws before its first
    write. *)
Lemma transferBlock_not_found
    (t : TransactionHandle) (req : Request TransferData) (w : World) :
  lookupsAnswer req →
  sourceAccount req (db w) = None ∨ destinationAccount req (db w) = None →
  transferBlock t req w = (Throw ServerError_NotFound, w).
Proof.
  intros [_ Hlookups]. revert Hlookups.
  unfold sourceAccount, destinationAccount, transferBlock.
  destruct (type (data req)); intros Hlookups Hnone;
    destruct_and!; handlers; run;
    destruct Hnone as [Hnone | Hnone]; rewrite Hnone;
    try done; by case_match.
Qed.

(** C4.  When the lookups of a transfer answer and the source or the
    destination account is not found, the [try] block throws the not-found
    error out of an untouched world (no balance was changed and no ledger
    row written), and [handleTransfer] throws it in turn, with the store
    and the calls to the integration as they were. *)
Theorem handleTransfer_not_found (req : Request TransferData) (w : World) :
  lookupsAnswer req →
  sourceAccount req (db w) = None ∨ destinationAccount req (db w) = None →
  transferBlock unmanaged req w = (Throw ServerError_NotFound, w) ∧
  handleTransfer req w
    = (Throw ServerError_NotFound, mkWorld (db w) [] (exportCalls w)).
Proof.
  intros Hanswer Hnone. split; [by apply transferBlock_not_found|].
  apply (handleTransfer_catch req w (mkWorld (db w) [] (exportCalls w)));
    [apply Hanswer|].
  by apply transferBlock_not_found.
Qed.
End Failures.

(** ** The cash service *)

Section CashService.
Context {env : Environment}.

(** C2 (amended).  With the framework integration on, [handleTakeCash]
    calls the export [pefclDepositMoney] and [handleGiveCash] the export
    [pefclWithdrawMoney], each once with the session and the amount; both
    return [null] and leave the store alone. *)
Theorem cash_integration_delegates (source amount : Z) (w : World) :
  useFrameworkIntegration = true →
  handleTakeCash source amount w
    = (Ok None,
       mkWorld (db w) (enlisted w)
               (exportCalls w ++ [pefclDepositMoney source amount])) ∧
  handleGiveCash source amount w
    = (Ok None,
       mkWorld (db w) (enlisted w)
               (exportCalls w ++ [pefclWithdrawMoney source amount])).
Proof. unfold handleTakeCash, handleGiveCash. by intros ->. Qed.

(** C6.  With the framework integration off, [handleTakeCash] takes the
    amount off the caller's cash row whatever its balance: the call
    returns the row it found, the stored balance goes down by exactly the
    amount, and below zero when the amount exceeds it. *)
Theorem handleTakeCash_no_floor (source amount : Z) (w : World) (held : Z) :
  useFrameworkIntegration = false →
  fault (SqlGetCashByIdentifier (getIdentifier (getUser source))) = None →
  fault (SqlDecrementCash (getIdentifier (getUser source)) amount) = None →
  cash (db w) !! getIdentifier (getUser source) = Some held →
  ∃ w',
    handleTakeCash source amount w
      = (Ok (Some (mkCash (getIdentifier (getUser source)) held)), w') ∧
    cash (db w') !! getIdentifier (getUser source) = Some (held - amount) ∧
    exportCalls w' = exportCalls w ∧
    (held < amount → held - amount < 0).
Proof.
  intros Hflag Hget Hdec Hheld. unfold handleTakeCash. rewrite Hflag.
  handlers. run. rewrite Hheld. run.
  eexists. split; [reflexivity|]. simpl. split_and!.
  - rewrite lookup_alter_eq, Hheld. simpl. f_equal; lia.
  - done.
  - lia.
Qed.

(** C9.  With the framework integration off and no cash row for the
    caller, [handleTakeCash] and [handleGiveCash] return [null], throw
    nothing and change nothing. *)
Theorem cash_no_row (source amount : Z) (w : World) :
  useFrameworkIntegration = false →
  fault (SqlGetCashByIdentifier (getIdentifier (getUser source))) = None →
  cash (db w) !! getIdentifier (getUser source) = None →
  handleTakeCash source amount w = (Ok None, w) ∧
  handleGiveCash source amount w = (Ok None, w).
Proof.
  intros Hflag Hget Hnone. unfold handleTakeCash, handleGiveCash. rewrite Hflag.
  handlers. run. rewrite Hnone. by run.
Qed.
End CashService.

(** ** JavaScript numbers

    Integers below [2 ^ 53] in magnitude are doubles, and adding or
    subtracting two of them is exact while the result stays below
    [2 ^ 53]. *)

Section Numbers.

Lemma iter_pos_iter {A} (f : A → A) (n : positive) (x : A) :
  SpecFloat.iter_pos f n x = Pos.iter f x n.
Proof.
  revert x. induction n as [n IH|n IH|]; intros x; simpl.
  - rewrite !IH. by rewrite !Pos.iter_swap.
  - by rewrite !IH.
  - done.
Qed.

Lemma digits2_pos_shiftl (p : positive) (k : N) :
  Zpos (digits2_pos (Pos.shiftl p k)) = Zpos (digits2_pos p) + Z.of_N k.
Proof.
  destruct k as [|k]; unfold Pos.shiftl; [lia|].
  induction k as [|k IH] using Pos.peano_ind.
  - simpl. lia.
  - rewrite Pos.iter_succ. simpl digits2_pos. lia.
Qed.

Lemma Zpos_shiftl (p : positive) (k : N) :
  Zpos (Pos.shiftl p k) = Zpos p * 2 ^ Z.of_N k.
Proof.
  destruct k as [|k]; unfold Pos.shiftl; [simpl; lia|].
  induction k as [|k IH] using Pos.peano_ind.
  - simpl. lia.
  - rewrite Pos.iter_succ. rewrite Pos2Z.inj_xO, IH.
    replace (Z.of_N (N.pos (Pos.succ k))) with (Z.of_N (N.pos k) + 1) by lia.
    rewrite Z.pow_add_r by lia. lia.
Qed.

Lemma shiftl_add (p : positive) (a : N) (n : positive) :
  Pos.shiftl p (a + N.pos n) = Pos.iter xO (Pos.shiftl p a) n.
Proof.
  destruct a as [|a]; unfold Pos.shiftl, N.add; [done|].
  rewrite Pos.add_comm. apply Pos.iter_add.
Qed.

(** Shifting right a mantissa that ends in as many zeros loses nothing. *)
Lemma shr_shiftl (p : positive) (n : positive) :
  Pos.iter shr_1 (Build_shr_record (Zpos (Pos.iter xO p n)) false false) n
  = Build_shr_record (Zpos p) false false.
Proof.
  induction n as [|n IH] using Pos.peano_ind.
  - done.
  - rewrite Pos.iter_succ_r. rewrite Pos.iter_succ. simpl shr_1. exact IH.
Qed.

Lemma digits2_pos_bound (p : positive) :
  2 ^ (Zpos (digits2_pos p) - 1) <= Zpos p < 2 ^ Zpos (digits2_pos p).
Proof.
  induction p as [p IH|p IH|]; simpl digits2_pos.
  - rewrite Pos2Z.inj_succ.
    replace (Z.succ (Zpos (digits2_pos p)) - 1)
      with (Zpos (digits2_pos p) - 1 + 1) by lia.
    rewrite Z.pow_succ_r by lia. rewrite Z.pow_add_r by lia. lia.
  - rewrite Pos2Z.inj_succ.
    replace (Z.succ (Zpos (digits2_pos p)) - 1)
      with (Zpos (digits2_pos p) - 1 + 1) by lia.
    rewrite Z.pow_succ_r by lia. rewrite Z.pow_add_r by lia. lia.
  - simpl. lia.
Qed.

Lemma digits2_pos_le (p : positive) :
  Zpos p < 2 ^ 53 → Zpos (digits2_pos p) <= 53.
Proof.
  intros Hp.
  destruct (Z.le_gt_cases (Zpos (digits2_pos p)) 53) as [|Hgt]; [done|].
  pose proof (digits2_pos_bound p) as [Hlow _].
  assert (2 ^ 53 <= 2 ^ (Zpos (digits2_pos p) - 1))
    by (apply Z.pow_le_mono_r; lia).
  lia.
Qed.

(** Rounding a mantissa [p] followed by [j] zeros, with [p] of at most 53
    bits, to 53 bits. *)
Lemma shr_fexp_shiftl (p : positive) (j : N) (e : Z) :
  Zpos (digits2_pos p) <= 53 →
  53 - Zpos (digits2_pos p) <= Z.of_N j →
  -1074 <= Zpos (digits2_pos p) + Z.of_N j + e - 53 →
  shr_fexp 53 1024 (Zpos (Pos.shiftl p j)) e loc_Exact
  = (Build_shr_record
       (Zpos (Pos.shiftl p (Z.to_N (53 - Zpos (digits2_pos p))))) false false,
     Zpos (digits2_pos p) + Z.of_N j + e - 53).
Proof.
  intros Hd Hj He. unfold shr_fexp, Zdigits2, shr_record_of_loc.
  rewrite digits2_pos_shiftl.
  replace (fexp 53 1024 (Zpos (digits2_pos p) + Z.of_N j + e) - e)
    with (Zpos (digits2_pos p) + Z.of_N j - 53) by (unfold fexp, emin; lia).
  destruct (Zpos (digits2_pos p) + Z.of_N j - 53) as [|n|n] eqn:Hn; [| |lia].
  - unfold shr. f_equal; [|lia]. do 3 f_equal. lia.
  - unfold shr. f_equal; [|lia].
    rewrite iter_pos_iter.
    replace j with (Z.to_N (53 - Zpos (digits2_pos p)) + N.pos n)%N by lia.
    rewrite shiftl_add. apply shr_shiftl.
Qed.

Lemma binary_round_aux_shiftl (s : bool) (p : positive) (j : N) (e : Z) :
  Zpos (digits2_pos p) <= 53 →
  53 - Zpos (digits2_pos p) <= Z.of_N j →
  -1074 <= Zpos (digits2_pos p) + Z.of_N j + e - 53 <= 971 →
  binary_round_aux 53 1024 s (Zpos (Pos.shiftl p j)) e loc_Exact
  = S754_finite s (Pos.shiftl p (Z.to_N (53 - Zpos (digits2_pos p))))
      (Zpos (digits2_pos p) + Z.of_N j + e - 53).
Proof.
  intros Hd Hj He. unfold binary_round_aux.
  rewrite shr_fexp_shiftl by lia.
  cbn [shr_m loc_of_shr_record round_nearest_even].
  set (q := Pos.shiftl p (Z.to_N (53 - Zpos (digits2_pos p)))).
  set (E := Zpos (digits2_pos p) + Z.of_N j + e - 53) in *.
  assert (Hq : Zpos (digits2_pos q) = 53)
    by (unfold q; rewrite digits2_pos_shiftl; lia).
  change (Zpos q) with (Zpos (Pos.shiftl q 0)).
  rewrite shr_fexp_shiftl by (change (Z.of_N 0) with 0; lia).
  rewrite Hq. change (Z.to_N (53 - 53)) with 0%N. change (Z.of_N 0) with 0.
  change (Pos.shiftl q 0) with q. cbv beta iota. cbn [shr_m].
  replace (53 + 0 + E - 53) with E by lia.
  replace (E <=? 1024 - 53) with true by (symmetry; apply Z.leb_le; lia).
  done.
Qed.

Lemma binary_round_shiftl (s : bool) (p : positive) (j : N) (e : Z) :
  Zpos (digits2_pos p) <= 53 →
  -1074 <= Zpos (digits2_pos p) + Z.of_N j + e - 53 <= 971 →
  binary_round 53 1024 s (Pos.shiftl p j) e
  = S754_finite s (Pos.shiftl p (Z.to_N (53 - Zpos (digits2_pos p))))
      (Zpos (digits2_pos p) + Z.of_N j + e - 53).
Proof.
  intros Hd He. unfold binary_round.
  rewrite digits2_pos_shiftl.
  replace (fexp 53 1024 (Zpos (digits2_pos p) + Z.of_N j + e))
    with (Zpos (digits2_pos p) + Z.of_N j + e - 53) by (unfold fexp, emin; lia).
  unfold shl_align.
  destruct (Zpos (digits2_pos p) + Z.of_N j + e - 53 - e) as [|n|n] eqn:Hn.
  - by rewrite binary_round_aux_shiftl by lia.
  - by rewrite binary_round_aux_shiftl by lia.
  - replace (Pos.iter xO (Pos.shiftl p j) n) with (Pos.shiftl p (j + N.pos n))
      by apply shiftl_add.
    rewrite binary_round_aux_shiftl by lia.
    f_equal; lia.
Qed.

(** The double of a safe integer. *)
Lemma toNumber_signed (z : Z) :
  Z.abs z < 2 ^ 53 →
  toNumber z = match z with
               | 0 => jsZero
               | Zpos p => normal false p
               | Zneg p => normal true p
               end.
Proof.
  intros Hz. destruct z as [|p|p]; [done| |].
  - assert (Zpos (digits2_pos p) <= 53) by (apply digits2_pos_le; lia).
    unfold toNumber, binary_normalize, normal.
    change p with (Pos.shiftl p 0) at 1.
    rewrite binary_round_shiftl by (simpl Z.of_N; lia).
    f_equal; simpl Z.of_N; lia.
  - assert (Zpos (digits2_pos p) <= 53) by (apply digits2_pos_le; lia).
    unfold toNumber, binary_normalize, normal.
    change p with (Pos.shiftl p 0) at 1.
    rewrite binary_round_shiftl by (simpl Z.of_N; lia).
    f_equal; simpl Z.of_N; lia.
Qed.

(** A safe integer is read back from its double: nothing is rounded. *)
Lemma toInteger_toNumber (z : Z) :
  Z.abs z < 2 ^ 53 → toInteger (toNumber z) = z.
Proof.
  intros Hz. rewrite toNumber_signed by done.
  destruct z as [|p|p]; [done| |];
    assert (Zpos (digits2_pos p) <= 53) by (apply digits2_pos_le; lia);
    unfold normal, toInteger;
    rewrite Zpos_shiftl, Z2N.id by lia;
    replace (Zpos (digits2_pos p) - 53) with (- (53 - Zpos (digits2_pos p))) by lia;
    rewrite Z.shiftl_opp_r, Z.shiftr_div_pow2 by lia;
    rewrite Z.div_mul by (apply Z.pow_nonzero; lia);
    done.
Qed.

Lemma binary_normalize_scaled (z : Z) (k : N) :
  Z.abs z < 2 ^ 53 →
  binary_normalize 53 1024 (z * 2 ^ Z.of_N k) (- Z.of_N k) false = toNumber z.
Proof.
  intros Hz. rewrite (toNumber_signed z Hz). destruct z as [|p|p]; [done| |].
  - rewrite <- Zpos_shiftl.
    unfold binary_normalize, normal.
    assert (Zpos (digits2_pos p) <= 53) by (apply digits2_pos_le; lia).
    rewrite binary_round_shiftl by lia. f_equal; lia.
  - replace (Zneg p * 2 ^ Z.of_N k) with (Zneg (Pos.shiftl p k))
      by (pose proof (Zpos_shiftl p k); lia).
    unfold binary_normalize, normal.
    assert (Zpos (digits2_pos p) <= 53) by (apply digits2_pos_le; lia).
    rewrite binary_round_shiftl by lia. f_equal; lia.
Qed.

Lemma shl_align_fst (m : positive) (ex ez : Z) :
  ez <= ex → Zpos (fst (shl_align m ex ez)) = Zpos m * 2 ^ (ex - ez).
Proof.
  intros H. unfold shl_align.
  destruct (ez - ex) as [|d|d] eqn:Hd; cbn [fst]; [| lia |].
  - replace (ex - ez) with 0 by lia. lia.
  - change (Pos.iter xO m d) with (Pos.shiftl m (N.pos d)).
    rewrite Zpos_shiftl. f_equal. f_equal. lia.
Qed.

Lemma aligned_normal (s : bool) (p : positive) (ez : Z) :
  Zpos (digits2_pos p) <= 53 → ez <= Zpos (digits2_pos p) - 53 →
  cond_Zopp s (Zpos (fst (shl_align
      (Pos.shiftl p (Z.to_N (53 - Zpos (digits2_pos p))))
      (Zpos (digits2_pos p) - 53) ez)))
  = signed s p * 2 ^ (- ez).
Proof.
  intros Hd He. rewrite shl_align_fst by lia. rewrite Zpos_shiftl.
  rewrite Z2N.id by lia.
  rewrite <- Z.mul_assoc, <- Z.pow_add_r by lia.
  replace (53 - Zpos (digits2_pos p) + (Zpos (digits2_pos p) - 53 - ez))
    with (- ez) by lia.
  unfold signed. destruct s; cbn [cond_Zopp]; lia.
Qed.

Lemma SFadd_normal (sx sy : bool) (px py : positive) :
  Zpos px < 2 ^ 53 → Zpos py < 2 ^ 53 →
  Z.abs (signed sx px + signed sy py) < 2 ^ 53 →
  jsAdd (normal sx px) (normal sy py) = toNumber (signed sx px + signed sy py).
Proof.
  intros Hx Hy Hxy.
  pose proof (digits2_pos_le px Hx). pose proof (digits2_pos_le py Hy).
  unfold jsAdd, normal, SFadd.
  set (ez := Z.min _ _).
  rewrite !aligned_normal by (unfold ez; lia).
  rewrite <- Z.mul_add_distr_r.
  replace ez with (- Z.of_N (Z.to_N (- ez))) at 2 by (unfold ez; lia).
  replace (- ez) with (Z.of_N (Z.to_N (- ez))) at 1 by (unfold ez; lia).
  by apply binary_normalize_scaled.
Qed.

Lemma SFsub_normal (sx sy : bool) (px py : positive) :
  Zpos px < 2 ^ 53 → Zpos py < 2 ^ 53 →
  Z.abs (signed sx px - signed sy py) < 2 ^ 53 →
  jsSub (normal sx px) (normal sy py) = toNumber (signed sx px - signed sy py).
Proof.
  intros Hx Hy Hxy.
  pose proof (digits2_pos_le px Hx). pose proof (digits2_pos_le py Hy).
  unfold jsSub, normal, SFsub.
  set (ez := Z.min _ _).
  rewrite !aligned_normal by (unfold ez; lia).
  rewrite <- Z.mul_sub_distr_r.
  replace ez with (- Z.of_N (Z.to_N (- ez))) at 2 by (unfold ez; lia).
  replace (- ez) with (Z.of_N (Z.to_N (- ez))) at 1 by (unfold ez; lia).
  by apply binary_normalize_scaled.
Qed.

(** Adding two safe integers whose sum is safe is exact. *)
Lemma jsAdd_exact (x y : Z) :
  Z.abs x < 2 ^ 53 → Z.abs y < 2 ^ 53 → Z.abs (x + y) < 2 ^ 53 →
  jsAdd (toNumber x) (toNumber y) = toNumber (x + y).
Proof.
  intros Hx Hy Hxy.
  rewrite (toNumber_signed x Hx), (toNumber_signed y Hy).
  destruct x as [|px|px], y as [|py|py];
    try reflexivity;
    try (rewrite ?Z.add_0_r, ?Z.add_0_l; rewrite toNumber_signed by lia;
         reflexivity).
  - apply (SFadd_normal false false); unfold signed; cbn [cond_Zopp]; lia.
  - apply (SFadd_normal false true); unfold signed; cbn [cond_Zopp Z.opp]; lia.
  - apply (SFadd_normal true false); unfold signed; cbn [cond_Zopp Z.opp]; lia.
  - apply (SFadd_normal true true); unfold signed; cbn [cond_Zopp Z.opp]; lia.
Qed.

(** Subtracting two safe integers whose difference is safe is exact. *)
Lemma jsSub_exact (x y : Z) :
  Z.abs x < 2 ^ 53 → Z.abs y < 2 ^ 53 → Z.abs (x - y) < 2 ^ 53 →
  jsSub (toNumber x) (toNumber y) = toNumber (x - y).
Proof.
  intros Hx Hy Hxy.
  rewrite (toNumber_signed x Hx), (toNumber_signed y Hy).
  destruct x as [|px|px], y as [|py|py];
    try reflexivity;
    try (rewrite ?Z.sub_0_r, ?Z.sub_0_l; rewrite toNumber_signed by lia;
         reflexivity).
  - apply (SFsub_normal false false); unfold signed; cbn [cond_Zopp]; lia.
  - apply (SFsub_normal false true); unfold signed; cbn [cond_Zopp Z.opp]; lia.
  - apply (SFsub_normal true false); unfold signed; cbn [cond_Zopp Z.opp]; lia.
  - apply (SFsub_normal true true); unfold signed; cbn [cond_Zopp Z.opp]; lia.
Qed.

(** Signs: rounding keeps the sign and makes no NaN. *)
Lemma shr_1_nonneg (mrs : shr_record) : 0 <= shr_m mrs → 0 <= shr_m (shr_1 mrs).
Proof.
  destruct mrs as [m r s]. cbn [shr_m]. intros Hm.
  destruct m as [|[p|p|]|p]; cbn; lia.
Qed.

Lemma iter_shr_1_nonneg (n : positive) (mrs : shr_record) :
  0 <= shr_m mrs → 0 <= shr_m (Pos.iter shr_1 mrs n).
Proof.
  intros Hm. apply Pos.iter_invariant; [|done].
  intros x. apply shr_1_nonneg.
Qed.

Lemma shr_fexp_nonneg (m e : Z) (l : location) :
  0 <= m → 0 <= shr_m (fst (shr_fexp 53 1024 m e l)).
Proof.
  intros Hm. unfold shr_fexp, shr.
  assert (0 <= shr_m (shr_record_of_loc m l)) by (destruct l as [|[]]; exact Hm).
  destruct (fexp 53 1024 (Zdigits2 m + e) - e); cbn [fst]; try done.
  rewrite iter_pos_iter. by apply iter_shr_1_nonneg.
Qed.

Lemma round_nearest_even_nonneg (m : Z) (l : location) :
  0 <= m → 0 <= round_nearest_even m l.
Proof.
  intros Hm. unfold round_nearest_even.
  destruct l as [|[]]; [done | destruct (Z.even m); lia | done | lia].
Qed.

Lemma binary_round_aux_sign (s : bool) (m e : Z) (l : location) :
  0 <= m → hasSign s (binary_round_aux 53 1024 s m e l).
Proof.
  intros Hm. unfold binary_round_aux.
  pose proof (shr_fexp_nonneg m e l Hm) as H1.
  destruct (shr_fexp 53 1024 m e l) as [mrs' e']. cbn [fst] in H1.
  pose proof (shr_fexp_nonneg _ e' loc_Exact
                (round_nearest_even_nonneg _ (loc_of_shr_record mrs') H1)) as H2.
  destruct (shr_fexp 53 1024 _ e' loc_Exact) as [mrs'' e'']. cbn [fst] in H2.
  destruct (shr_m mrs'') as [|p|p]; [exact I | | lia].
  destruct (e'' <=? 1024 - 53); reflexivity.
Qed.

Lemma binary_normalize_sign (s : bool) (m e : Z) :
  (if s then m <= 0 else 0 <= m) →
  hasSign s (binary_normalize 53 1024 m e false).
Proof.
  intros Hm. unfold binary_normalize, binary_round. destruct m as [|p|p].
  - exact I.
  - destruct s; [lia|]. destruct (shl_align _ _ _) as [mz ez].
    apply binary_round_aux_sign. lia.
  - destruct s; [|lia]. destruct (shl_align _ _ _) as [mz ez].
    apply binary_round_aux_sign. lia.
Qed.

Lemma toNumber_sign (z : Z) : 0 <= z → hasSign false (toNumber z).
Proof. intros. by apply (binary_normalize_sign false). Qed.

Lemma jsAdd_sign (x y : Number) :
  hasSign false x → hasSign false y → hasSign false (jsAdd x y).
Proof.
  destruct x as [sx|sx| |sx mx ex], y as [sy|sy| |sy my ey]; cbn [hasSign];
    intros Hx Hy; subst; try contradiction; try exact I; try reflexivity.
  - destruct sx, sy; exact I.
  - unfold jsAdd, SFadd. apply (binary_normalize_sign false). cbn [cond_Zopp]. lia.
Qed.

Lemma jsSub_sign (x y : Number) :
  hasSign true x → hasSign false y → hasSign true (jsSub x y).
Proof.
  destruct x as [sx|sx| |sx mx ex], y as [sy|sy| |sy my ey]; cbn [hasSign];
    intros Hx Hy; subst; try contradiction; try exact I; try reflexivity.
  - destruct sx, sy; exact I.
  - unfold jsSub, SFsub. apply (binary_normalize_sign true). cbn [cond_Zopp]. lia.
Qed.

Lemma jsLe_zero_l (x : Number) : hasSign false x → jsLe jsZero x = true.
Proof.
  destruct x as [s|s| |s m e]; cbn [hasSign]; intros H; subst;
    try contradiction; reflexivity.
Qed.

Lemma jsLe_zero_r (x : Number) : hasSign true x → jsLe x jsZero = true.
Proof.
  destruct x as [s|s| |s m e]; cbn [hasSign]; intros H; subst;
    try contradiction; reflexivity.
Qed.
End Numbers.

(** ** The history *)

Section History.
Context {env : Environment}.

Lemma ofType_cons (ty : TransactionType) (t : Transaction) (l : list Transaction) :
  ofType ty (t :: l) = if decide (tx_type t = ty) then t :: ofType ty l else ofType ty l.
Proof. unfold ofType. by rewrite filter_cons. Qed.

Lemma onDay_cons (day : string) (t : Transaction) (l : list Transaction) :
  onDay day (t :: l) = if decide (localeDate t = day) then t :: onDay day l else onDay day l.
Proof. unfold onDay. by rewrite filter_cons. Qed.

(** The reducers of the totals skip the transactions of the other types. *)
Lemma fold_expensesStep (l : list Transaction) (prev : Number) :
  fold_left expensesStep l prev = subtractAmounts prev (ofType Outgoing l).
Proof.
  revert prev. induction l as [|t l IH]; intros prev; simpl; [done|].
  rewrite IH, ofType_cons. unfold expensesStep.
  case_bool_decide; case_decide; done.
Qed.

Lemma fold_incomeStep (l : list Transaction) (prev : Number) :
  fold_left incomeStep l prev = addAmounts prev (ofType Incoming l).
Proof.
  revert prev. induction l as [|t l IH]; intros prev; simpl; [done|].
  rewrite IH, ofType_cons. unfold incomeStep.
  case_bool_decide; case_decide; done.
Qed.

Lemma addAmounts_ofType_cons (ty : TransactionType) (prev : Number)
    (t : Transaction) (l : list Transaction) :
  addAmounts prev (ofType ty (t :: l))
  = addAmounts (addAmounts prev (ofType ty [t])) (ofType ty l).
Proof. rewrite !ofType_cons. by case_decide. Qed.

Lemma subtractAmounts_ofType_cons (ty : TransactionType) (prev : Number)
    (t : Transaction) (l : list Transaction) :
  subtractAmounts prev (ofType ty (t :: l))
  = subtractAmounts (subtractAmounts prev (ofType ty [t])) (ofType ty l).
Proof. rewrite !ofType_cons. by case_decide. Qed.

(** One step of the per-day reducer, read at any day. *)
Lemma lastWeekStep_lookup (prev : gmap string DayTotals) (t : Transaction)
    (day : string) :
  lastWeekStep prev t !! day =
  if decide (localeDate t = day)
  then Some {| day_income :=
                 addAmounts (day_income (dayTotals prev day)) (ofType Incoming [t]);
               day_expenses :=
                 subtractAmounts (day_expenses (dayTotals prev day))
                                 (ofType Outgoing [t]) |}
  else prev !! day.
Proof.
  unfold lastWeekStep, dayTotals. rewrite !ofType_cons.
  case_decide as Hday; [subst day|].
  - destruct (prev !! localeDate t) as [d|]; simpl;
      rewrite lookup_insert_eq;
      destruct (tx_type t); simpl; done.
  - destruct (prev !! localeDate t) as [d|]; simpl; by rewrite lookup_insert_ne.
Qed.

Lemma fold_lastWeekStep (l : list Transaction) (prev : gmap string DayTotals)
    (day : string) :
  fold_left lastWeekStep l prev !! day =
  match onDay day l with
  | [] => prev !! day
  | ts =>
      Some {| day_income :=
                addAmounts (day_income (dayTotals prev day)) (ofType Incoming ts);
              day_expenses :=
                subtractAmounts (day_expenses (dayTotals prev day))
                                (ofType Outgoing ts) |}
  end.
Proof.
  revert prev. induction l as [|t l IH]; intros prev; simpl; [done|].
  rewrite IH, onDay_cons. unfold dayTotals at 1 2.
  rewrite !lastWeekStep_lookup.
  case_decide as Hday; [|done].
  rewrite !(addAmounts_ofType_cons _ _ t (onDay day l)),
    !(subtractAmounts_ofType_cons _ _ t (onDay day l)).
  by destruct (onDay day l) as [|t' l'].
Qed.

(** What the per-day map holds for a day, with the reducer's defaults. *)
Lemma dayTotals_lastWeek (l : list Transaction) (day : string) :
  dayTotals (fold_left lastWeekStep l ∅) day =
  {| day_income := addAmounts jsZero (ofType Incoming (onDay day l));
     day_expenses := subtractAmounts jsZero (ofType Outgoing (onDay day l)) |}.
Proof.
  unfold dayTotals at 1. rewrite fold_lastWeekStep.
  unfold dayTotals. rewrite lookup_empty.
  by destruct (onDay day l).
Qed.

Lemma ofType_without (ty : TransactionType) (l1 l2 : list Transaction)
    (t : Transaction) :
  tx_type t ≠ ty → ofType ty (l1 ++ t :: l2) = ofType ty (l1 ++ l2).
Proof.
  intros Hne. unfold ofType. rewrite !filter_app. f_equal.
  by rewrite filter_cons_False.
Qed.

Lemma ofType_onDay_without (ty : TransactionType) (day : string)
    (l1 l2 : list Transaction) (t : Transaction) :
  tx_type t ≠ ty →
  ofType ty (onDay day (l1 ++ t :: l2)) = ofType ty (onDay day (l1 ++ l2)).
Proof.
  intros Hne. unfold onDay. rewrite !filter_app, filter_cons.
  case_decide; [|done]. by apply ofType_without.
Qed.

(** Amounts whose magnitudes add up to less than [2 ^ 53] are added and
    subtracted without rounding. *)
Lemma sumMagnitudes_nonneg (l : list Transaction) : 0 <= sumMagnitudes l.
Proof. unfold sumMagnitudes. induction l; simpl; lia. Qed.

Lemma sumMagnitudes_filter (P : Transaction → Prop) `{!∀ t, Decision (P t)}
    (l : list Transaction) :
  sumMagnitudes (filter P l) <= sumMagnitudes l.
Proof.
  induction l as [|t l IH]; [done|].
  rewrite filter_cons. unfold sumMagnitudes in *.
  case_decide; simpl; lia.
Qed.

Lemma sumMagnitudes_ofType (ty : TransactionType) (l : list Transaction) :
  sumMagnitudes (ofType ty l) <= sumMagnitudes l.
Proof. apply sumMagnitudes_filter. Qed.

Lemma sumMagnitudes_onDay (day : string) (l : list Transaction) :
  sumMagnitudes (onDay day l) <= sumMagnitudes l.
Proof. apply sumMagnitudes_filter. Qed.

Lemma addAmounts_cons (prev : Number) (t : Transaction) (l : list Transaction) :
  addAmounts prev (t :: l) = addAmounts (jsAdd prev (toNumber (tx_amount t))) l.
Proof. done. Qed.

Lemma subtractAmounts_cons (prev : Number) (t : Transaction)
    (l : list Transaction) :
  subtractAmounts prev (t :: l)
  = subtractAmounts (jsSub prev (toNumber (tx_amount t))) l.
Proof. done. Qed.

Lemma addAmounts_exact (l : list Transaction) (a : Z) :
  Z.abs a + sumMagnitudes l < 2 ^ 53 →
  addAmounts (toNumber a) l = toNumber (a + sumAmounts l).
Proof.
  revert a. induction l as [|t l IH]; intros a Hsafe.
  - unfold sumAmounts. simpl. by rewrite Z.add_0_r.
  - pose proof (sumMagnitudes_nonneg l).
    unfold sumMagnitudes in *. simpl in Hsafe.
    rewrite addAmounts_cons, jsAdd_exact by lia.
    rewrite IH by (unfold sumMagnitudes; lia).
    f_equal. unfold sumAmounts. simpl. lia.
Qed.

Lemma subtractAmounts_exact (l : list Transaction) (a : Z) :
  Z.abs a + sumMagnitudes l < 2 ^ 53 →
  subtractAmounts (toNumber a) l = toNumber (a - sumAmounts l).
Proof.
  revert a. induction l as [|t l IH]; intros a Hsafe.
  - unfold sumAmounts. simpl. by rewrite Z.sub_0_r.
  - pose proof (sumMagnitudes_nonneg l).
    unfold sumMagnitudes in *. simpl in Hsafe.
    rewrite subtractAmounts_cons, jsSub_exact by lia.
    rewrite IH by (unfold sumMagnitudes; lia).
    f_equal. unfold sumAmounts. simpl. lia.
Qed.

(** The history of a list whose amounts are in the safe range. *)
Lemma history_exact (l : list Transaction) :
  sumMagnitudes l < 2 ^ 53 →
  resp_expenses (history l) = toNumber (- sumAmounts (ofType Outgoing l)) ∧
  resp_income (history l) = toNumber (sumAmounts (ofType Incoming l)) ∧
  ∀ day,
    resp_lastWeek (history l) !! day =
    match onDay day l with
    | [] => None
    | ts =>
        Some {| day_income := toNumber (sumAmounts (ofType Incoming ts));
                day_expenses := toNumber (- sumAmounts (ofType Outgoing ts)) |}
    end.
Proof.
  intros Hsafe. unfold history; simpl.
  rewrite fold_expensesStep, fold_incomeStep.
  change jsZero with (toNumber 0).
  split_and!.
  - rewrite subtractAmounts_exact; [done|].
    pose proof (sumMagnitudes_ofType Outgoing l). lia.
  - rewrite addAmounts_exact; [done|].
    pose proof (sumMagnitudes_ofType Incoming l). lia.
  - intros day. rewrite fold_lastWeekStep. unfold dayTotals.
    rewrite lookup_empty. simpl.
    pose proof (sumMagnitudes_onDay day l) as Hday.
    destruct (onDay day l) as [|t ts]; [done|].
    pose proof (sumMagnitudes_ofType Incoming (t :: ts)).
    pose proof (sumMagnitudes_ofType Outgoing (t :: ts)).
    change jsZero with (toNumber 0).
    rewrite addAmounts_exact, subtractAmounts_exact by lia.
    done.
Qed.

(** C7 (amended).  [handleGetHistory] answers for the transactions the
    store returns for the caller's accounts since a week ago.  Its expenses
    are zero with the [Outgoing] amounts subtracted one after the other, in
    the order of the list and in double arithmetic; its income is zero with
    the [Incoming] amounts added likewise; the per-day map has a bucket
    exactly for the date strings of these transactions, holding the same
    two results over the transactions of that date string.  When the
    magnitudes of the amounts add up to less than [2 ^ 53], these are minus
    the sum of the [Outgoing] amounts and the sum of the [Incoming]
    amounts, of all transactions and of those of each day. *)
Theorem handleGetHistory_totals
    (req : Request unit) (w w' : World) (h : GetTransactionHistoryResponse) :
  handleGetHistory req w = (Ok h, w') →
  let transactions := fetched req (db w) in
  (resp_expenses h = subtractAmounts jsZero (ofType Outgoing transactions) ∧
   resp_income h = addAmounts jsZero (ofType Incoming transactions) ∧
   ∀ day,
     resp_lastWeek h !! day =
     match onDay day transactions with
     | [] => None
     | ts =>
         Some {| day_income := addAmounts jsZero (ofType Incoming ts);
                 day_expenses := subtractAmounts jsZero (ofType Outgoing ts) |}
     end) ∧
  (sumMagnitudes transactions < 2 ^ 53 →
   resp_expenses h = toNumber (- sumAmounts (ofType Outgoing transactions)) ∧
   resp_income h = toNumber (sumAmounts (ofType Incoming transactions)) ∧
   ∀ day,
     resp_lastWeek h !! day =
     match onDay day transactions with
     | [] => None
     | ts =>
         Some {| day_income := toNumber (sumAmounts (ofType Incoming ts));
                 day_expenses := toNumber (- sumAmounts (ofType Outgoing ts)) |}
     end).
Proof.
  unfold fetched, caller. handlers. intros Hrun. run.
  split; [|apply history_exact].
  unfold history; simpl.
  rewrite fold_expensesStep, fold_incomeStep. split_and!; [done | done |].
  intros day. rewrite fold_lastWeekStep. unfold dayTotals. rewrite lookup_empty.
  by destruct (onDay day _).
Qed.

(** C10.  A transaction of type [Transfer], wherever it stands in the
    list, adds nothing to the income and to the expenses of the history,
    and leaves the income and the expenses of every day, its own included,
    as they are without it. *)
Theorem history_ignores_transfers
    (l1 l2 : list Transaction) (t : Transaction) :
  tx_type t = Transfer →
  resp_income (history (l1 ++ t :: l2)) = resp_income (history (l1 ++ l2)) ∧
  resp_expenses (history (l1 ++ t :: l2)) = resp_expenses (history (l1 ++ l2)) ∧
  ∀ day,
    dayTotals (resp_lastWeek (history (l1 ++ t :: l2))) day =
    dayTotals (resp_lastWeek (history (l1 ++ l2))) day.
Proof.
  intros Hty. unfold history; simpl.
  rewrite !fold_expensesStep, !fold_incomeStep.
  rewrite !(ofType_without _ l1 l2 t) by (rewrite Hty; done).
  split_and!; [done | done |].
  intros day. rewrite !dayTotals_lastWeek.
  by rewrite !(ofType_onDay_without _ day l1 l2 t) by (rewrite Hty; done).
Qed.
End History.

(** ** The properties at the small bank *)

(** Alice sends 50 to the external account 7. *)
Lemma handleExternalTransfer_two_rows_witness :
  type (data aliceToExternal) = External ∧
  handleTransfer (env := localLedger) aliceToExternal atBank
    = (Ok tt, mkWorld bankAfterExternal [] []) ∧
  ∃ out inc myAccount toAccount,
    sourceAccount (env := localLedger) aliceToExternal bank = Some myAccount ∧
    destinationAccount (env := localLedger) aliceToExternal bank = Some toAccount ∧
    transactions bankAfterExternal = transactions bank ++ [out; inc] ∧
    tx_type out = Outgoing ∧ tx_type inc = Incoming ∧
    tx_amount out = 50 ∧ tx_amount inc = 50 ∧
    tx_message out = "invoice"%string ∧ tx_message inc = "invoice"%string ∧
    tx_fromAccount out = Some myAccount ∧ tx_fromAccount inc = Some myAccount ∧
    tx_toAccount out = Some toAccount ∧ tx_toAccount inc = Some toAccount.
Proof.
  split; [reflexivity|]. split; [vm_compute; reflexivity|].
  apply (handleExternalTransfer_two_rows (env := localLedger)
           aliceToExternal atBank (mkWorld bankAfterExternal [] []));
    [reflexivity | vm_compute; reflexivity].
Defined.

(** The rows of Alice's external transfer both name her account as the
    source and Bob's as the destination: the roles are not reversed. *)
Lemma external_rows_not_reversed :
  ¬ externalRowsReversed (env := localLedger) aliceToExternal atBank.
Proof.
  intros Hclaim.
  destruct (Hclaim (mkWorld bankAfterExternal [] []))
    as (out & inc & Hrows & Hout & Hinc & _ & _ & Hfrom & _);
    [vm_compute; reflexivity|].
  simpl in Hrows. destruct Hrows as [Hrows | Hrows]; simplify_eq; discriminate.
Qed.

(** With the integration on, 100 is taken from and given to Alice. *)
Lemma cash_integration_delegates_witness :
  useFrameworkIntegration (Environment := withIntegration) = true ∧
  handleTakeCash (env := withIntegration) 1 100 atBank
    = (Ok None, mkWorld bank [] [pefclDepositMoney 1 100]) ∧
  handleGiveCash (env := withIntegration) 1 100 atBank
    = (Ok None, mkWorld bank [] [pefclWithdrawMoney 1 100]).
Proof.
  split; [reflexivity|].
  apply (cash_integration_delegates (env := withIntegration) 1 100 atBank).
  reflexivity.
Defined.

(** Taking 100 from Alice with the integration on calls
    [pefclDepositMoney], not [pefclWithdrawMoney]. *)
Lemma take_cash_calls_deposit :
  ¬ takeWithdrawsGiveDeposits (env := withIntegration) 1 100 atBank.
Proof.
  intros Hclaim. destruct Hclaim as [Htake _]; [reflexivity|].
  vm_compute in Htake. discriminate.
Qed.

(** Alice (500) sends 100 to Bob (200): 400 and 300, and one row. *)
Lemma handleInternalTransfer_moves_amount_witness :
  type (data aliceToBob) = Internal ∧
  handleTransfer (env := localLedger) aliceToBob atBank
    = (Ok tt, mkWorld bankAfterTransfer [] []) ∧
  ∃ fromAccount toAccount row,
    sourceAccount (env := localLedger) aliceToBob bank = Some fromAccount ∧
    destinationAccount (env := localLedger) aliceToBob bank = Some toAccount ∧
    transactions bankAfterTransfer = transactions bank ++ [row] ∧
    tx_type row = Transfer ∧
    tx_amount row = 100 ∧
    tx_message row = "rent"%string ∧
    tx_fromAccount row = Some fromAccount ∧
    tx_toAccount row = Some toAccount ∧
    (acc_id fromAccount ≠ acc_id toAccount →
     ∀ sB dB,
       balance bank (acc_id fromAccount) = Some sB →
       balance bank (acc_id toAccount) = Some dB →
       balance bankAfterTransfer (acc_id fromAccount) = Some (sB - 100) ∧
       balance bankAfterTransfer (acc_id toAccount) = Some (dB + 100)) ∧
    (acc_id fromAccount = acc_id toAccount →
     ∀ sB,
       balance bank (acc_id fromAccount) = Some sB →
       balance bankAfterTransfer (acc_id fromAccount) = Some sB).
Proof.
  split; [reflexivity|]. split; [vm_compute; reflexivity|].
  apply (handleInternalTransfer_moves_amount (env := localLedger)
           aliceToBob atBank (mkWorld bankAfterTransfer [] []));
    [reflexivity | vm_compute; reflexivity].
Defined.

(** Alice sending 100 to her own account keeps her 500: her balance does
    not become 400. *)
Lemma self_transfer_keeps_balance :
  ¬ internalTransferMoves (env := localLedger) aliceToHerself atBank.
Proof.
  intros Hclaim.
  destruct (Hclaim (mkWorld bankAfterSelfTransfer [] []) alice alice 500 500)
    as [Hsource _]; try (vm_compute; reflexivity).
  vm_compute in Hsource. discriminate.
Qed.

(** Alice sends 100 to account 9, which does not exist. *)
Lemma handleTransfer_not_found_witness :
  lookupsAnswer (env := localLedger) aliceToNobody ∧
  (sourceAccount (env := localLedger) aliceToNobody bank = None ∨
   destinationAccount (env := localLedger) aliceToNobody bank = None) ∧
  transferBlock (env := localLedger) unmanaged aliceToNobody atBank
    = (Throw ServerError_NotFound, atBank) ∧
  handleTransfer (env := localLedger) aliceToNobody atBank
    = (Throw ServerError_NotFound, atBank).
Proof.
  assert (lookupsAnswer (env := localLedger) aliceToNobody) as Hanswer
    by (repeat split).
  assert (sourceAccount (env := localLedger) aliceToNobody bank = None ∨
          destinationAccount (env := localLedger) aliceToNobody bank = None)
    as Hnone by (right; reflexivity).
  split; [exact Hanswer|]. split; [exact Hnone|].
  exact (handleTransfer_not_found (env := localLedger) aliceToNobody atBank
           Hanswer Hnone).
Defined.

(** C5 (the code departs from it).  Alice sends 100 to Bob while the
    ledger insert fails.  [handleTransfer] throws the error of the insert
    unchanged, but the two balance mutations made before it stay: Alice is
    left with 400 and Bob with 300, not with the 500 and 200 they had
    before the call.  The handle [t] was passed to none of the statements,
    so [t.rollback()] has nothing to undo. *)
Theorem handleTransfer_failed_insert_keeps_mutations :
  handleTransfer (env := ledgerDown) aliceToBob atBank
    = (Throw (DatabaseError "ER_DATA_TOO_LONG"), mkWorld bankMidTransfer [] []) ∧
  balance bank 1 = Some 500 ∧ balance bankMidTransfer 1 = Some 400 ∧
  balance bank 2 = Some 200 ∧ balance bankMidTransfer 2 = Some 300 ∧
  ¬ failureRollsBack (env := ledgerDown) aliceToBob atBank.
Proof.
  assert (handleTransfer (env := ledgerDown) aliceToBob atBank
          = (Throw (DatabaseError "ER_DATA_TOO_LONG"),
             mkWorld bankMidTransfer [] [])) as Hrun
    by (vm_compute; reflexivity).
  split_and!; [exact Hrun | reflexivity.. |].
  intros Hclaim. destruct (Hclaim _ _ Hrun) as [Haccounts _].
  assert (balance bankMidTransfer 1 = balance bank 1) as Hsame
    by (unfold balance; f_equal; f_equal; exact Haccounts).
  vm_compute in Hsame. discriminate.
Qed.

(** Alice holds 30 in cash and 100 is taken: she holds -70. *)
Lemma handleTakeCash_no_floor_witness :
  ∃ w',
    handleTakeCash (env := localLedger) 1 100 atBank
      = (Ok (Some (mkCash "alice" 30)), w') ∧
    cash (db w') !! "alice"%string = Some (-70) ∧
    exportCalls w' = [] ∧
    (30 < 100 → 30 - 100 < 0).
Proof.
  apply (handleTakeCash_no_floor (env := localLedger) 1 100 atBank 30);
    reflexivity.
Defined.

(** Alice's week: its amounts are far below [2 ^ 53]. *)
Lemma handleGetHistory_totals_witness :
  handleGetHistory (env := localLedger) (mkRequest 1 tt) (mkWorld bankWithHistory [] [])
    = (Ok weekOfAlice, mkWorld bankWithHistory [] []) ∧
  sumMagnitudes (transactions bankWithHistory) < 2 ^ 53 ∧
  resp_expenses weekOfAlice
    = toNumber (- sumAmounts (ofType Outgoing (transactions bankWithHistory))) ∧
  resp_income weekOfAlice
    = toNumber (sumAmounts (ofType Incoming (transactions bankWithHistory))).
Proof.
  assert (handleGetHistory (env := localLedger) (mkRequest 1 tt)
            (mkWorld bankWithHistory [] [])
          = (Ok weekOfAlice, mkWorld bankWithHistory [] [])) as Hrun
    by (vm_compute; reflexivity).
  assert (sumMagnitudes (transactions bankWithHistory) < 2 ^ 53) as Hsafe
    by (vm_compute; reflexivity).
  split; [exact Hrun|]. split; [exact Hsafe|].
  destruct (handleGetHistory_totals (env := localLedger) _ _ _ _ Hrun)
    as (_ & Hexact).
  destruct (Hexact Hsafe) as (Hexpenses & Hincome & _).
  split; [exact Hexpenses | exact Hincome].
Defined.

(** The week of the large sums: the incomes add up to [2 ^ 53 + 2], the
    history answers [2 ^ 53]. *)
Lemma large_sums_week :
  handleGetHistory (env := localLedger) (mkRequest 1 tt)
      (mkWorld bankOfLargeSums [] [])
    = (Ok weekOfLargeSums, mkWorld bankOfLargeSums [] []) ∧
  toInteger (resp_income weekOfLargeSums) = 2 ^ 53 ∧
  sumAmounts (ofType Incoming (transactions bankOfLargeSums)) = 2 ^ 53 + 2 ∧
  toInteger (toNumber (2 ^ 53 + 2)) = 2 ^ 53 + 2.
Proof. split_and!; vm_compute; reflexivity. Qed.

(** Alice's incomes of [2 ^ 53], 1 and 1 add up to [2 ^ 53 + 2], which is
    a double.  The history answers [2 ^ 53]: [2 ^ 53 + 1] is rounded to
    [2 ^ 53] each time 1 is added. *)
Lemma history_drops_small_incomes :
  ¬ historyHoldsSums (env := localLedger) (mkRequest 1 tt)
      (mkWorld bankOfLargeSums [] []).
Proof.
  intros Hclaim.
  destruct (Hclaim weekOfLargeSums (mkWorld bankOfLargeSums [] []))
    as (_ & Hincome & _); [vm_compute; reflexivity|].
  vm_compute in Hincome. discriminate.
Qed.

(** Alice does not own account 2 but is an admin of it: it is debited. *)
Lemma handleInternalTransfer_source_precedence_witness :
  selectAuthorizedAccount storeQueries sharedBank 2 "alice" = None ∧
  selectAuthorizedSharedAccount storeQueries sharedBank 2 "alice" [Admin; Owner]
    = Some bob ∧
  handleTransfer (env := localLedger) aliceFromBobs (mkWorld sharedBank [] [])
    = (Ok tt, mkWorld sharedBankAfter [] []).
Proof.
  split; [reflexivity|]. split; [reflexivity|].
  destruct (handleInternalTransfer_source_precedence (env := localLedger)
              aliceFromBobs (mkWorld sharedBank [] []) eq_refl) as [_ Hruns].
  specialize (Hruns (fun _ => eq_refl) alice eq_refl).
  vm_compute in Hruns. vm_compute. exact Hruns.
Defined.

(** Bob has no cash row. *)
Lemma cash_no_row_witness :
  handleTakeCash (env := localLedger) 2 100 atBank = (Ok None, atBank) ∧
  handleGiveCash (env := localLedger) 2 100 atBank = (Ok None, atBank).
Proof.
  apply (cash_no_row (env := localLedger) 2 100 atBank); reflexivity.
Defined.

(** Alice's week with and without the 100 she moved to Bob. *)
Lemma history_ignores_transfers_witness :
  resp_income (history (env := localLedger) [paid50; received20; moved100; paid5])
    = resp_income (history (env := localLedger) [paid50; received20; paid5]) ∧
  resp_expenses (history (env := localLedger) [paid50; received20; moved100; paid5])
    = resp_expenses (history (env := localLedger) [paid50; received20; paid5]) ∧
  ∀ day,
    dayTotals
      (resp_lastWeek (history (env := localLedger)
                        [paid50; received20; moved100; paid5])) day
    = dayTotals
        (resp_lastWeek (history (env := localLedger)
                          [paid50; received20; paid5])) day.
Proof.
  apply (history_ignores_transfers (env := localLedger)
           [paid50; received20] [paid5] moved100).
  reflexivity.
Defined.

(** ** Further properties of the transfers *)

Section MoreTransfers.
Context {env : Environment}.

Lemma addBalance_swap (i j n m : Z) (d : DB) :
  accounts (addBalance i n (addBalance j m d))
  = accounts (addBalance j m (addBalance i n d)).
Proof.
  apply map_eq. intros k. unfold addBalance; simpl. rewrite !lookup_alter.
  repeat case_decide; subst; rewrite ?lookup_alter_eq, ?lookup_alter_ne by done;
    try done.
  destruct (accounts d !! k) as [r|]; simpl; [|done].
  do 2 f_equal. lia.
Qed.

(** What a transfer of either kind leaves of the store when it succeeds. *)
Lemma handleTransfer_ok (req : Request TransferData) (w w' : World) :
  handleTransfer req w = (Ok tt, w') →
  ∃ fromAccount toAccount,
    sourceAccount req (db w) = Some fromAccount ∧
    destinationAccount req (db w) = Some toAccount ∧
    accounts (db w')
    = accounts (addBalance (acc_id fromAccount) (- amount (data req))
                  (addBalance (acc_id toAccount) (amount (data req)) (db w))) ∧
    cash (db w') = cash (db w) ∧
    sharedAccounts (db w') = sharedAccounts (db w) ∧
    externalAccounts (db w') = externalAccounts (db w) ∧
    exportCalls w' = exportCalls w.
Proof.
  intros Hrun. unfold sourceAccount, destinationAccount.
  destruct (type (data req)) eqn:Hty.
  - rewrite (handleTransfer_internal _ Hty) in Hrun.
    apply handleInternalTransfer_ok in Hrun
      as (fromAccount & toAccount & Hfrom & Hto & ->).
    by exists fromAccount, toAccount.
  - rewrite (handleTransfer_external _ Hty) in Hrun.
    apply handleExternalTransfer_ok in Hrun
      as (myAccount & toAccount & Hmy & Hto & ->).
    exists myAccount, toAccount. split_and!; try done.
    simpl. apply (addBalance_swap _ _ _ _ (db w)).
Qed.

Lemma accounts_addBalance_other (i n k : Z) (d : DB) :
  i ≠ k → accounts (addBalance i n d) !! k = accounts d !! k.
Proof. intros Hne. unfold addBalance; simpl. by rewrite lookup_alter_ne. Qed.

Lemma owner_addBalance (i n k : Z) (d : DB) :
  row_ownerIdentifier <$> accounts (addBalance i n d) !! k
  = row_ownerIdentifier <$> accounts d !! k.
Proof.
  unfold addBalance; simpl. rewrite lookup_alter.
  case_decide; [subst|done]. by destruct (accounts d !! k).
Qed.

Lemma balance_of_accounts (d d' : DB) (k : Z) :
  accounts d = accounts d' → balance d k = balance d' k.
Proof. unfold balance. by intros ->. Qed.

(** X1.  An external transfer that succeeds between two different
    accounts takes the amount off the source balance and adds it to the
    destination balance; when the external account stands for the source
    account itself, its balance is what it was. *)
Theorem handleExternalTransfer_moves_amount
    (req : Request TransferData) (w w' : World) :
  type (data req) = External →
  handleTransfer req w = (Ok tt, w') →
  ∃ myAccount toAccount,
    sourceAccount req (db w) = Some myAccount ∧
    destinationAccount req (db w) = Some toAccount ∧
    (acc_id myAccount ≠ acc_id toAccount →
     ∀ sB dB,
       balance (db w) (acc_id myAccount) = Some sB →
       balance (db w) (acc_id toAccount) = Some dB →
       balance (db w') (acc_id myAccount) = Some (sB - amount (data req)) ∧
       balance (db w') (acc_id toAccount) = Some (dB + amount (data req))) ∧
    (acc_id myAccount = acc_id toAccount →
     ∀ sB,
       balance (db w) (acc_id myAccount) = Some sB →
       balance (db w') (acc_id myAccount) = Some sB).
Proof.
  intros Hty Hrun.
  destruct (handleTransfer_ok _ _ _ Hrun)
    as (myAccount & toAccount & Hmy & Hto & Haccounts & _).
  exists myAccount, toAccount. split_and!; [done | done | |].
  - intros Hne sB dB HsB HdB.
    rewrite !(balance_of_accounts _ _ _ Haccounts), !balance_addBalance.
    repeat case_decide; try congruence.
    rewrite HsB, HdB. simpl. split; f_equal; lia.
  - intros Heq sB HsB.
    rewrite !(balance_of_accounts _ _ _ Haccounts), !balance_addBalance.
    rewrite <- Heq. repeat case_decide; try congruence.
    rewrite HsB. simpl. f_equal; lia.
Qed.

(** X2.  A transfer that succeeds touches nothing but the balances of its
    two accounts and the ledger: every other account row, the owner of
    every account, the cash table, the role grants and the external
    accounts are as before, and no call goes to the framework
    integration. *)
Theorem handleTransfer_touches_two_balances
    (req : Request TransferData) (w w' : World) :
  handleTransfer req w = (Ok tt, w') →
  ∃ fromAccount toAccount,
    sourceAccount req (db w) = Some fromAccount ∧
    destinationAccount req (db w) = Some toAccount ∧
    (∀ k, k ≠ acc_id fromAccount → k ≠ acc_id toAccount →
          accounts (db w') !! k = accounts (db w) !! k) ∧
    (∀ k, row_ownerIdentifier <$> accounts (db w') !! k
          = row_ownerIdentifier <$> accounts (db w) !! k) ∧
    cash (db w') = cash (db w) ∧
    sharedAccounts (db w') = sharedAccounts (db w) ∧
    externalAccounts (db w') = externalAccounts (db w) ∧
    exportCalls w' = exportCalls w.
Proof.
  intros Hrun.
  destruct (handleTransfer_ok _ _ _ Hrun)
    as (fromAccount & toAccount & Hfrom & Hto & Haccounts & Hrest).
  exists fromAccount, toAccount. split_and!; try done; try apply Hrest.
  - intros k Hk1 Hk2. rewrite Haccounts.
    by rewrite !accounts_addBalance_other.
  - intros k. rewrite Haccounts. by rewrite !owner_addBalance.
Qed.
End MoreTransfers.

Section TransferOutcomes.
Context {env : Environment}.

(** The sum of the balances when one of them is changed. *)
Lemma totalBalance_addBalance (i n : Z) (d : DB) :
  is_Some (accounts d !! i) →
  totalBalance (addBalance i n d) = totalBalance d + n.
Proof.
  intros [r Hr]. unfold totalBalance, addBalance; simpl.
  rewrite <- (insert_delete_id (accounts d) i r Hr) at 1.
  rewrite alter_insert_eq.
  rewrite (map_fold_delete_L _ _ i r (accounts d)); [|intros; lia|done].
  rewrite map_fold_insert_L; [simpl; lia|intros; lia|].
  apply lookup_delete_eq.
Qed.

Lemma is_Some_addBalance (i j n : Z) (d : DB) :
  is_Some (accounts d !! i) → is_Some (accounts (addBalance j n d) !! i).
Proof.
  intros [r Hr]. unfold addBalance; simpl. rewrite lookup_alter.
  case_decide; subst; rewrite ?Hr; eauto.
Qed.

(** X3.  A transfer that succeeds between two accounts that have a row
    leaves the sum of all balances of the store as it was: what one
    account loses the other gains. *)
Theorem handleTransfer_conserves_total
    (req : Request TransferData) (w w' : World) :
  handleTransfer req w = (Ok tt, w') →
  (∀ a, sourceAccount req (db w) = Some a →
        is_Some (accounts (db w) !! acc_id a)) →
  (∀ a, destinationAccount req (db w) = Some a →
        is_Some (accounts (db w) !! acc_id a)) →
  totalBalance (db w') = totalBalance (db w).
Proof.
  intros Hrun Hsource Hdestination.
  destruct (handleTransfer_ok _ _ _ Hrun)
    as (fromAccount & toAccount & Hfrom & Hto & Haccounts & _).
  unfold totalBalance at 1. rewrite Haccounts.
  change (totalBalance
            (addBalance (acc_id fromAccount) (- amount (data req))
               (addBalance (acc_id toAccount) (amount (data req)) (db w)))
          = totalBalance (db w)).
  rewrite !totalBalance_addBalance; [lia | by apply Hdestination |].
  apply is_Some_addBalance. by apply Hsource.
Qed.

(** X4.  When no call to the persistence layer fails, a transfer succeeds
    exactly when its two accounts are found: no amount is refused,
    whether it exceeds the source balance, is zero or is negative. *)
Theorem handleTransfer_succeeds_iff_resolved
    (req : Request TransferData) (w : World) :
  (∀ s, fault s = None) →
  (∃ w', handleTransfer req w = (Ok tt, w')) ↔
  is_Some (sourceAccount req (db w)) ∧ is_Some (destinationAccount req (db w)).
Proof.
  intros Hnone. split.
  - intros [w' Hrun].
    destruct (handleTransfer_ok _ _ _ Hrun) as (a & b & -> & -> & _). eauto.
  - unfold sourceAccount, destinationAccount, handleTransfer, caller.
    intros [[a Ha] [b Hb]]. revert Ha Hb.
    destruct (type (data req)); simpl; intros Ha Hb; handlers;
      repeat (rewrite ?Hnone; run_known); eauto.
Qed.

(** X5.  When the transaction cannot be opened, [handleTransfer] throws
    the error of [sequelize.transaction()] and the world is untouched: no
    lookup was made and no statement issued. *)
Theorem handleTransfer_begin_fails
    (req : Request TransferData) (w : World) (e : Exception) :
  fault SqlTransaction = Some e →
  handleTransfer req w = (Throw e, w).
Proof.
  intros Hbegin. unfold handleTransfer.
  case_bool_decide; handlers; by rewrite bind_run, Hbegin.
Qed.

(** X6.  When the first balance update of a transfer fails (the credit of
    an internal transfer, the debit of an external one), [handleTransfer]
    throws its error and the store is as it was. *)
Theorem handleTransfer_first_update_fails
    (req : Request TransferData) (w : World) (e : Exception)
    (fromAccount toAccount : Account) :
  lookupsAnswer req →
  sourceAccount req (db w) = Some fromAccount →
  destinationAccount req (db w) = Some toAccount →
  match type (data req) with
  | Internal => fault (SqlIncrementBalance (acc_id toAccount) (amount (data req)))
  | External => fault (SqlDecrementBalance (acc_id fromAccount) (amount (data req)))
  end = Some e →
  handleTransfer req w = (Throw e, mkWorld (db w) [] (exportCalls w)).
Proof.
  unfold lookupsAnswer, sourceAccount, destinationAccount, caller.
  intros [Hbegin Hlookups] Hfrom Hto Hfail.
  apply (handleTransfer_catch req w (mkWorld (db w) [] (exportCalls w)));
    [done|].
  unfold transferBlock, caller. revert Hlookups Hfrom Hto Hfail.
  destruct (type (data req)); intros Hlookups Hfrom Hto Hfail;
    destruct_and!; handlers; by run_known.
Qed.

(** X7.  When the debit of an internal transfer fails after its credit
    went through, [handleTransfer] throws the error of the debit and the
    destination keeps the amount it was credited, while nothing was taken
    from the source and no ledger row was written. *)
Theorem handleInternalTransfer_debit_fails
    (req : Request TransferData) (w : World) (e : Exception)
    (fromAccount toAccount : Account) :
  type (data req) = Internal →
  lookupsAnswer req →
  sourceAccount req (db w) = Some fromAccount →
  destinationAccount req (db w) = Some toAccount →
  fault (SqlIncrementBalance (acc_id toAccount) (amount (data req))) = None →
  fault (SqlDecrementBalance (acc_id fromAccount) (amount (data req))) = Some e →
  handleTransfer req w
  = (Throw e,
     mkWorld (addBalance (acc_id toAccount) (amount (data req)) (db w)) []
             (exportCalls w)).
Proof.
  unfold lookupsAnswer, sourceAccount, destinationAccount, caller.
  intros Hty [Hbegin Hlookups] Hfrom Hto Hcredit Hdebit.
  apply (handleTransfer_catch req w
           (mkWorld (addBalance (acc_id toAccount) (amount (data req)) (db w)) []
                    (exportCalls w))); [done|].
  unfold transferBlock, caller. revert Hlookups Hfrom Hto.
  rewrite Hty. intros (Hmy & Hshared & Hget) Hfrom Hto. handlers.
  by run_known.
Qed.

(** X8.  An external transfer does not look at who asks for it: two
    requests with the same payload, from whatever sessions, do the same
    to the same world. *)
Theorem handleExternalTransfer_ignores_caller
    (transfer : TransferData) (source1 source2 : Z) (w : World) :
  type transfer = External →
  handleTransfer (mkRequest source1 transfer) w
  = handleTransfer (mkRequest source2 transfer) w.
Proof.
  intros Hty. by rewrite !handleTransfer_external.
Qed.
End TransferOutcomes.

(** ** Further properties of the history *)

Section MoreHistory.
Context {env : Environment}.

Lemma sumAmounts_Permutation (l l' : list Transaction) :
  l ≡ₚ l' → sumAmounts l = sumAmounts l'.
Proof.
  unfold sumAmounts. induction 1; simpl; lia.
Qed.

Lemma sumMagnitudes_Permutation (l l' : list Transaction) :
  l ≡ₚ l' → sumMagnitudes l = sumMagnitudes l'.
Proof.
  unfold sumMagnitudes. induction 1; simpl; lia.
Qed.

Lemma Forall_ofType (P : Transaction → Prop) (ty : TransactionType)
    (l : list Transaction) :
  Forall P l → Forall P (ofType ty l).
Proof.
  rewrite !Forall_forall. intros Hall t Ht.
  apply list_elem_of_filter in Ht as [_ Ht]. by apply Hall.
Qed.

Lemma Forall_onDay (P : Transaction → Prop) (day : string)
    (l : list Transaction) :
  Forall P l → Forall P (onDay day l).
Proof.
  rewrite !Forall_forall. intros Hall t Ht.
  apply list_elem_of_filter in Ht as [_ Ht]. by apply Hall.
Qed.

(** X9.  While the magnitudes of the amounts add up to less than
    [2 ^ 53], the history does not depend on the order in which the store
    returns the transactions. *)
Theorem history_Permutation (l l' : list Transaction) :
  l ≡ₚ l' → sumMagnitudes l < 2 ^ 53 → history l = history l'.
Proof.
  intros Hperm Hsafe.
  assert (sumMagnitudes l' < 2 ^ 53) as Hsafe'
    by (by rewrite <- (sumMagnitudes_Permutation _ _ Hperm)).
  destruct (history_exact l Hsafe) as (Hexpenses & Hincome & Hdays).
  destruct (history_exact l' Hsafe') as (Hexpenses' & Hincome' & Hdays').
  assert (∀ ty, sumAmounts (ofType ty l) = sumAmounts (ofType ty l')) as Hsum.
  { intros ty. apply sumAmounts_Permutation. unfold ofType. by rewrite Hperm. }
  destruct (history l) as [income lastWeek expenses],
    (history l') as [income' lastWeek' expenses']; simpl in *.
  f_equal.
  - by rewrite Hincome, Hincome', Hsum.
  - apply map_eq. intros day. rewrite Hdays, Hdays'.
    assert (onDay day l ≡ₚ onDay day l') as Hday
      by (unfold onDay; by rewrite Hperm).
    assert (∀ ty, sumAmounts (ofType ty (onDay day l))
                  = sumAmounts (ofType ty (onDay day l'))) as Hsums.
    { intros ty. apply sumAmounts_Permutation. unfold ofType. by rewrite Hday. }
    revert Hday Hsums.
    destruct (onDay day l) as [|t k], (onDay day l') as [|t' k'];
      intros Hday Hsums; try done.
    + by apply Permutation_nil_l in Hday.
    + by apply Permutation_nil_r in Hday.
    + by rewrite !Hsums.
  - by rewrite Hexpenses, Hexpenses', Hsum.
Qed.

(** The days of a list of transactions, and the sums over them. *)
Lemma dom_lastWeek (l : list Transaction) :
  dom (fold_left lastWeekStep l ∅) = list_to_set (localeDate <$> l).
Proof.
  apply set_eq. intros day.
  rewrite elem_of_dom, elem_of_list_to_set, list_elem_of_fmap.
  rewrite fold_lastWeekStep, lookup_empty.
  destruct (onDay day l) as [|t k] eqn:Hday.
  - split; [by intros [? ?]|]. intros (t & -> & Ht).
    by destruct (filter_nil_not_elem_of _ _ t Hday eq_refl).
  - split; [|eauto]. intros _. exists t.
    assert (t ∈ onDay day l) as Ht by (rewrite Hday; left).
    apply list_elem_of_filter in Ht as [<- Ht]. done.
Qed.

Lemma overDays_one (day : string) (c : Z) (days : list string) :
  NoDup days → day ∈ days →
  overDays (fun d => if decide (day = d) then c else 0) days = c.
Proof.
  unfold overDays. induction 1 as [|d days Hd Hnodup IH]; intros Hin.
  - by apply elem_of_nil in Hin.
  - simpl. case_decide as Heq.
    + subst d. clear IH Hin.
      assert (foldr (fun d acc => (if decide (day = d) then c else 0) + acc) 0 days
              = 0) as ->; [|lia].
      induction days as [|d days IH]; [done|]. simpl.
      rewrite not_elem_of_cons in Hd. destruct Hd as [Hne Hd].
      apply NoDup_cons in Hnodup as [_ Hnodup].
      rewrite decide_False by done. by rewrite IH.
    + apply elem_of_cons in Hin as [Hin|Hin]; [done|]. rewrite IH by done. lia.
Qed.

Lemma overDays_add (g1 g2 : string → Z) (days : list string) :
  overDays (fun d => g1 d + g2 d) days = overDays g1 days + overDays g2 days.
Proof. unfold overDays. induction days; simpl; lia. Qed.

Lemma overDays_ext (g1 g2 : string → Z) (days : list string) :
  (∀ d, g1 d = g2 d) → overDays g1 days = overDays g2 days.
Proof. intros Hext. unfold overDays. induction days; simpl; [done|]. by rewrite Hext, IHdays. Qed.

Lemma overDays_opp (g : string → Z) (days : list string) :
  overDays (fun d => - g d) days = - overDays g days.
Proof. unfold overDays. induction days; simpl; lia. Qed.

Lemma overDays_zero (days : list string) : overDays (fun _ => 0) days = 0.
Proof. unfold overDays. induction days; simpl; lia. Qed.

Lemma total_cons (weight : Transaction → Z) (t : Transaction) (l : list Transaction) :
  total weight (t :: l) = weight t + total weight l.
Proof. done. Qed.

(** Every transaction counts for one day: the sums of the days add up to
    the sum of the week. *)
Lemma overDays_onDay (weight : Transaction → Z) (l : list Transaction)
    (days : list string) :
  NoDup days → (∀ t, t ∈ l → localeDate t ∈ days) →
  overDays (fun d => total weight (onDay d l)) days = total weight l.
Proof.
  intros Hnodup. induction l as [|t l IH]; intros Hin.
  - unfold onDay, total. simpl. apply overDays_zero.
  - rewrite total_cons, <- IH by (intros; apply Hin; by right).
    rewrite <- (overDays_one (localeDate t) (weight t) days Hnodup)
      by (apply Hin; by left).
    rewrite <- overDays_add. apply overDays_ext. intros d.
    rewrite onDay_cons. by case_decide.
Qed.

Lemma sumAmounts_total (ty : TransactionType) (l : list Transaction) :
  sumAmounts (ofType ty l)
  = total (fun t => if decide (tx_type t = ty) then tx_amount t else 0) l.
Proof.
  induction l as [|t l IH]; [done|].
  rewrite ofType_cons, total_cons, <- IH.
  unfold sumAmounts. case_decide; simpl; lia.
Qed.

Lemma sumMagnitudes_total (l : list Transaction) :
  sumMagnitudes l = total (fun t => Z.abs (tx_amount t)) l.
Proof. done. Qed.

Lemma sumAmounts_magnitude (l : list Transaction) :
  Z.abs (sumAmounts l) <= sumMagnitudes l.
Proof. unfold sumAmounts, sumMagnitudes. induction l; simpl; lia. Qed.

(** Adding up numbers that are safe integers, while the magnitudes stay
    below [2 ^ 53]. *)
Lemma fold_jsAdd_exact (f : string → Number) (g bound : string → Z)
    (days : list string) (a : Z) :
  (∀ d, f d = toNumber (g d)) → (∀ d, Z.abs (g d) <= bound d) →
  Z.abs a + overDays bound days < 2 ^ 53 →
  fold_left (fun acc d => jsAdd acc (f d)) days (toNumber a)
  = toNumber (a + overDays g days).
Proof.
  intros Hf Hbound. revert a. unfold overDays.
  induction days as [|d days IH]; intros a Hsafe; simpl in *.
  - by rewrite Z.add_0_r.
  - assert (0 <= foldr (fun d acc => bound d + acc) 0 days) as Hnonneg.
    { clear -Hbound. induction days as [|d' days IH]; simpl; [done|].
      pose proof (Hbound d'). lia. }
    pose proof (Hbound d).
    rewrite Hf, jsAdd_exact by lia.
    rewrite IH by lia. f_equal. lia.
Qed.

(** X10.  While the magnitudes of the amounts add up to less than
    [2 ^ 53], the days of a history add up to its totals: adding the
    incomes of the buckets, in any order of the days, gives the income,
    and adding their expenses gives the expenses. *)
Theorem history_days_add_up (l : list Transaction) (days : list string) :
  sumMagnitudes l < 2 ^ 53 →
  days ≡ₚ elements (dom (resp_lastWeek (history l))) →
  sumDayIncome (resp_lastWeek (history l)) days = resp_income (history l) ∧
  sumDayExpenses (resp_lastWeek (history l)) days = resp_expenses (history l).
Proof.
  intros Hsafe Hdays.
  assert (NoDup days) as Hnodup by (rewrite Hdays; apply NoDup_elements).
  assert (∀ t, t ∈ l → localeDate t ∈ days) as Hcover.
  { intros t Ht. rewrite Hdays, elem_of_elements.
    unfold history; simpl. rewrite dom_lastWeek, elem_of_list_to_set.
    apply list_elem_of_fmap. eauto. }
  destruct (history_exact l Hsafe) as (-> & -> & _).
  unfold history, sumDayIncome, sumDayExpenses; simpl.
  pose proof (overDays_onDay (fun t => Z.abs (tx_amount t)) l days Hnodup Hcover)
    as Hbound.
  rewrite <- sumMagnitudes_total in Hbound.
  change jsZero with (toNumber 0).
  split.
  - rewrite (fold_jsAdd_exact _
               (fun d => sumAmounts (ofType Incoming (onDay d l)))
               (fun d => sumMagnitudes (onDay d l))).
    + f_equal. rewrite Z.add_0_l, sumAmounts_total.
      rewrite <- (overDays_onDay _ l days Hnodup Hcover).
      apply overDays_ext. intros d. apply sumAmounts_total.
    + intros d. rewrite dayTotals_lastWeek; simpl.
      change jsZero with (toNumber 0).
      rewrite addAmounts_exact; [done|].
      pose proof (sumMagnitudes_ofType Incoming (onDay d l)).
      pose proof (sumMagnitudes_onDay d l). lia.
    + intros d. etrans; [apply sumAmounts_magnitude|].
      apply sumMagnitudes_ofType.
    + simpl. rewrite (overDays_ext _ (fun d => total (fun t => Z.abs (tx_amount t)) (onDay d l)))
        by done. lia.
  - rewrite (fold_jsAdd_exact _
               (fun d => - sumAmounts (ofType Outgoing (onDay d l)))
               (fun d => sumMagnitudes (onDay d l))).
    + f_equal. rewrite Z.add_0_l, sumAmounts_total.
      rewrite <- (overDays_onDay _ l days Hnodup Hcover).
      rewrite <- overDays_opp. apply overDays_ext. intros d. by rewrite sumAmounts_total.
    + intros d. rewrite dayTotals_lastWeek; simpl.
      change jsZero with (toNumber 0).
      rewrite subtractAmounts_exact; [done|].
      pose proof (sumMagnitudes_ofType Outgoing (onDay d l)).
      pose proof (sumMagnitudes_onDay d l). lia.
    + intros d. rewrite Z.abs_opp. etrans; [apply sumAmounts_magnitude|].
      apply sumMagnitudes_ofType.
    + simpl. rewrite (overDays_ext _ (fun d => total (fun t => Z.abs (tx_amount t)) (onDay d l)))
        by done. lia.
Qed.

Lemma addAmounts_sign (l : list Transaction) (prev : Number) :
  Forall (fun t => 0 <= tx_amount t) l →
  hasSign false prev → hasSign false (addAmounts prev l).
Proof.
  intros Hall. revert prev. induction Hall as [|t l Ht Hall IH]; intros prev Hprev.
  - done.
  - rewrite addAmounts_cons. apply IH, jsAdd_sign; [done|]. by apply toNumber_sign.
Qed.

Lemma subtractAmounts_sign (l : list Transaction) (prev : Number) :
  Forall (fun t => 0 <= tx_amount t) l →
  hasSign true prev → hasSign true (subtractAmounts prev l).
Proof.
  intros Hall. revert prev. induction Hall as [|t l Ht Hall IH]; intros prev Hprev.
  - done.
  - rewrite subtractAmounts_cons. apply IH, jsSub_sign; [done|].
    by apply toNumber_sign.
Qed.

(** X11.  When no amount is negative, the income of a history is not
    negative and its expenses are not positive, and so for every day:
    none of them is NaN either. *)
Theorem history_signs (l : list Transaction) :
  Forall (fun t => 0 <= tx_amount t) l →
  jsLe jsZero (resp_income (history l)) = true ∧
  jsLe (resp_expenses (history l)) jsZero = true ∧
  ∀ day,
    jsLe jsZero (day_income (dayTotals (resp_lastWeek (history l)) day)) = true ∧
    jsLe (day_expenses (dayTotals (resp_lastWeek (history l)) day)) jsZero = true.
Proof.
  intros Hall. unfold history; simpl.
  rewrite fold_incomeStep, fold_expensesStep.
  split_and!.
  - by apply jsLe_zero_l, addAmounts_sign; [apply Forall_ofType|].
  - by apply jsLe_zero_r, subtractAmounts_sign; [apply Forall_ofType|].
  - intros day. rewrite dayTotals_lastWeek; simpl. split.
    + by apply jsLe_zero_l, addAmounts_sign;
        [apply Forall_ofType, Forall_onDay|].
    + by apply jsLe_zero_r, subtractAmounts_sign;
        [apply Forall_ofType, Forall_onDay|].
Qed.

(** X12.  The history has a bucket for exactly the date strings of its
    transactions, whatever their type: a day on which money was only
    moved between accounts has a bucket too, and with no transaction there
    is no bucket. *)
Theorem history_days (l : list Transaction) :
  dom (resp_lastWeek (history l)) = list_to_set (localeDate <$> l).
Proof. unfold history; simpl. apply dom_lastWeek. Qed.
End MoreHistory.

(** ** Further properties of the cash service and of the reads *)

Section MoreCash.
Context {env : Environment} {listing : Listing}.

Lemma addCash_back (identifier : string) (n : Z) (d : DB) :
  addCash identifier n (addCash identifier (- n) d) = d.
Proof.
  destruct d as [a s x t c]. unfold addCash; simpl. f_equal.
  apply map_eq. intros k.
  destruct (decide (identifier = k)) as [->|Hne].
  - rewrite !lookup_alter_eq. destruct (c !! k); simpl; [f_equal; lia|done].
  - by rewrite !lookup_alter_ne.
Qed.

(** X13.  With the framework integration off, [handleGiveCash] adds
    exactly the amount to the caller's cash row and returns the row as it
    was found, before the addition. *)
Theorem handleGiveCash_adds (source amount : Z) (w : World) (held : Z) :
  useFrameworkIntegration = false →
  fault (SqlGetCashByIdentifier (getIdentifier (getUser source))) = None →
  fault (SqlIncrementCash (getIdentifier (getUser source)) amount) = None →
  cash (db w) !! getIdentifier (getUser source) = Some held →
  ∃ w',
    handleGiveCash source amount w
      = (Ok (Some (mkCash (getIdentifier (getUser source)) held)), w') ∧
    cash (db w') !! getIdentifier (getUser source) = Some (held + amount).
Proof.
  intros Hflag Hget Hinc Hheld. unfold handleGiveCash. rewrite Hflag.
  handlers. run_known.
  eexists. split; [reflexivity|]. simpl.
  by rewrite lookup_alter_eq, Hheld.
Qed.

(** X14.  With the framework integration off, taking an amount from a
    player and giving it back leaves the store as it was, whether the
    player has a cash row or not. *)
Theorem take_then_give_restores (source amount : Z) (w : World) :
  useFrameworkIntegration = false →
  fault (SqlGetCashByIdentifier (getIdentifier (getUser source))) = None →
  fault (SqlDecrementCash (getIdentifier (getUser source)) amount) = None →
  fault (SqlIncrementCash (getIdentifier (getUser source)) amount) = None →
  ∃ r,
    (handleTakeCash source amount;; handleGiveCash source amount) w = (Ok r, w).
Proof.
  intros Hflag Hget Hdec Hinc. unfold handleTakeCash, handleGiveCash.
  rewrite Hflag. handlers. run_known.
  destruct (cash (db w) !! getIdentifier (getUser source)) as [held|] eqn:Hheld;
    run_known.
  - rewrite lookup_alter_eq, Hheld. run_known.
    rewrite addCash_back, world_eta. eauto.
  - rewrite ?world_eta. eauto.
Qed.

(** What [getMyCash] answers: the balance the user directory reports with
    the framework integration on, and otherwise the amount of the caller's
    cash row, or 0 without one. *)
Lemma getMyCash_run (source : Z) (w : World) :
  getMyCash source w =
  if useFrameworkIntegration then (Ok (getBalance (getUser source)), w)
  else
    match fault (SqlGetCashByIdentifier (getIdentifier (getUser source))) with
    | Some e => (Throw e, w)
    | None =>
        (Ok (default 0 (cash (db w) !! getIdentifier (getUser source))), w)
    end.
Proof.
  unfold getMyCash, getCashModel. destruct useFrameworkIntegration; [done|].
  handlers. run_known. destruct (fault _); [done|].
  by destruct (cash (db w) !! _).
Qed.

(** X15.  With the framework integration off, a player without a cash row
    has 0 for [getMyCash], and still has after cash was given: without a
    row [handleGiveCash] returns [null] and gives nothing, it does not
    create the row. *)
Theorem give_without_row_gives_nothing (source amount : Z) (w : World) :
  useFrameworkIntegration = false →
  fault (SqlGetCashByIdentifier (getIdentifier (getUser source))) = None →
  cash (db w) !! getIdentifier (getUser source) = None →
  (before ← getMyCash source;
   given ← handleGiveCash source amount;
   after ← getMyCash source;
   mret (before, given, after)) w
  = (Ok (0, None, 0), w).
Proof.
  intros Hflag Hget Hnone. rewrite !bind_run, getMyCash_run, Hflag, Hget, Hnone.
  simpl. rewrite bind_run. unfold handleGiveCash. rewrite Hflag. handlers.
  run_known. by rewrite getMyCash_run, Hflag, Hget, Hnone.
Qed.

(** X16.  With the framework integration off, what [getMyCash] answers
    after cash was taken from a player is what the player held less the
    amount, although [handleTakeCash] itself returned the row with the
    amount held before. *)
Theorem getMyCash_after_take (source amount : Z) (w : World) (held : Z) :
  useFrameworkIntegration = false →
  fault (SqlGetCashByIdentifier (getIdentifier (getUser source))) = None →
  fault (SqlDecrementCash (getIdentifier (getUser source)) amount) = None →
  cash (db w) !! getIdentifier (getUser source) = Some held →
  ∃ w',
    (taken ← handleTakeCash source amount;
     now ← getMyCash source;
     mret (taken, now)) w
    = (Ok (Some (mkCash (getIdentifier (getUser source)) held), held - amount),
       w').
Proof.
  intros Hflag Hget Hdec Hheld.
  unfold handleTakeCash, getMyCash, getCashModel. rewrite Hflag.
  handlers. run_known. rewrite lookup_alter_eq, Hheld. run_known.
  eexists. do 3 f_equal.
Qed.

(** X17.  With the framework integration off, [handleTakeCash] and
    [handleGiveCash] touch nothing but the caller's cash row: the cash of
    every other player, the accounts, the ledger, the role grants and the
    external accounts are as before, and no call goes to the framework
    integration, whatever the outcome. *)
Theorem cash_handlers_touch_one_row
    (source amount : Z) (w w' : World) (r : Result (option Cash)) :
  useFrameworkIntegration = false →
  handleTakeCash source amount w = (r, w') ∨
  handleGiveCash source amount w = (r, w') →
  (∀ identifier, identifier ≠ getIdentifier (getUser source) →
                 cash (db w') !! identifier = cash (db w) !! identifier) ∧
  accounts (db w') = accounts (db w) ∧
  transactions (db w') = transactions (db w) ∧
  sharedAccounts (db w') = sharedAccounts (db w) ∧
  externalAccounts (db w') = externalAccounts (db w) ∧
  exportCalls w' = exportCalls w.
Proof.
  intros Hflag. unfold handleTakeCash, handleGiveCash. rewrite Hflag.
  handlers.
  destruct (fault (SqlGetCashByIdentifier (getIdentifier (getUser source))))
    eqn:Hget;
    destruct (cash (db w) !! getIdentifier (getUser source)) eqn:Hheld;
    destruct (fault (SqlDecrementCash (getIdentifier (getUser source)) amount))
      eqn:Hdec;
    destruct (fault (SqlIncrementCash (getIdentifier (getUser source)) amount))
      eqn:Hinc;
    run_known; intros [Hrun | Hrun]; simplify_eq; simpl;
    split_and!; try done;
    intros identifier Hne; by rewrite lookup_alter_ne.
Qed.

(** X18.  With the framework integration off, an error of the cash lookup
    or of the update comes out of [handleTakeCash] and [handleGiveCash]
    as it is, and the world is untouched. *)
Theorem cash_handlers_throw_unchanged
    (source amount : Z) (w w' : World) (e : Exception) :
  useFrameworkIntegration = false →
  handleTakeCash source amount w = (Throw e, w') ∨
  handleGiveCash source amount w = (Throw e, w') →
  w' = w ∧
  (fault (SqlGetCashByIdentifier (getIdentifier (getUser source))) = Some e ∨
   fault (SqlDecrementCash (getIdentifier (getUser source)) amount) = Some e ∨
   fault (SqlIncrementCash (getIdentifier (getUser source)) amount) = Some e).
Proof.
  intros Hflag. unfold handleTakeCash, handleGiveCash. rewrite Hflag.
  handlers.
  destruct (fault (SqlGetCashByIdentifier (getIdentifier (getUser source))))
    eqn:Hget;
    destruct (cash (db w) !! getIdentifier (getUser source)) eqn:Hheld;
    destruct (fault (SqlDecrementCash (getIdentifier (getUser source)) amount))
      eqn:Hdec;
    destruct (fault (SqlIncrementCash (getIdentifier (getUser source)) amount))
      eqn:Hinc;
    run_known; intros [Hrun | Hrun]; simplify_eq; eauto.
Qed.

Lemma getMyTransactions_run (req : Request GetTransactionsInput) (w : World) :
  getMyTransactions req w =
  let accountIds :=
    map acc_id (selectAccountsByIdentifier queries (db w)
                  (getIdentifier (getUser (source req)))) in
  match fault (SqlGetAccountsByIdentifier (getIdentifier (getUser (source req)))) with
  | Some e => (Throw e, w)
  | None =>
      match listingFault (SqlGetTransactionFromAccounts (data req) accountIds) with
      | Some e => (Throw e, w)
      | None =>
          match listingFault (SqlGetTotalTransactionsFromAccounts accountIds) with
          | Some e => (Throw e, w)
          | None =>
              (Ok {| list_total :=
                       selectTotalTransactionsFromAccounts (db w) accountIds;
                     list_offset := page_offset (data req);
                     list_limit := page_limit (data req);
                     list_transactions :=
                       map setCreatedAt
                           (selectTransactionFromAccounts (db w) (data req)
                              accountIds) |}, w)
          end
      end
  end.
Proof.
  unfold getMyTransactions, getAccountsByIdentifier. rewrite bind_run, query_run.
  destruct (fault _); [done|]. simpl.
  unfold getTransactionFromAccounts, getTotalTransactionsFromAccounts,
    listingQuery.
  rewrite bind_run. destruct (listingFault _); [done|].
  rewrite bind_run. by destruct (listingFault _).
Qed.

(** X19.  The three read handlers never change the world, whether they
    answer or throw. *)
Theorem read_handlers_change_nothing
    (w w1 w2 w3 : World) (req1 : Request unit)
    (req2 : Request GetTransactionsInput) (source : Z)
    (r1 : Result GetTransactionHistoryResponse)
    (r2 : Result GetTransactionsResponse) (r3 : Result Z) :
  handleGetHistory req1 w = (r1, w1) →
  handleGetMyTransactions req2 w = (r2, w2) →
  getMyCash source w = (r3, w3) →
  w1 = w ∧ w2 = w ∧ w3 = w.
Proof.
  intros Hhistory Hlisting Hcash. split_and!.
  - revert Hhistory. handlers. intros Hrun. by run.
  - revert Hlisting. unfold handleGetMyTransactions.
    rewrite bind_run, getMyTransactions_run. cbv zeta.
    destruct (fault _); [congruence|].
    destruct (listingFault _); [congruence|].
    destruct (listingFault _); simpl; rewrite ?ret_run; congruence.
  - revert Hcash. rewrite getMyCash_run.
    destruct useFrameworkIntegration; [congruence|].
    destruct (fault _); congruence.
Qed.

End MoreCash.

(** ** The further properties at the small bank *)

(** Alice sends 50 to the external account 7, which is Bob's: 450 and
    250. *)
Lemma handleExternalTransfer_moves_amount_witness :
  balance bank 1 = Some 500 ∧ balance bank 2 = Some 200 ∧
  balance bankAfterExternal 1 = Some (500 - 50) ∧
  balance bankAfterExternal 2 = Some (200 + 50).
Proof.
  destruct (handleExternalTransfer_moves_amount (env := localLedger)
              aliceToExternal atBank (mkWorld bankAfterExternal [] [])
              eq_refl)
    as (myAccount & toAccount & Hmy & Hto & Hmove & _);
    [vm_compute; reflexivity|].
  vm_compute in Hmy, Hto. simplify_eq.
  split; [reflexivity|]. split; [reflexivity|].
  apply Hmove; [discriminate | reflexivity | reflexivity].
Defined.

Lemma handleTransfer_touches_two_balances_witness :
  ∃ fromAccount toAccount,
    sourceAccount (env := localLedger) aliceToBob bank = Some fromAccount ∧
    destinationAccount (env := localLedger) aliceToBob bank = Some toAccount ∧
    (∀ k, k ≠ acc_id fromAccount → k ≠ acc_id toAccount →
          accounts bankAfterTransfer !! k = accounts bank !! k) ∧
    (∀ k, row_ownerIdentifier <$> accounts bankAfterTransfer !! k
          = row_ownerIdentifier <$> accounts bank !! k) ∧
    cash bankAfterTransfer = cash bank ∧
    sharedAccounts bankAfterTransfer = sharedAccounts bank ∧
    externalAccounts bankAfterTransfer = externalAccounts bank ∧
    exportCalls (mkWorld bankAfterTransfer [] []) = exportCalls atBank.
Proof.
  apply (handleTransfer_touches_two_balances (env := localLedger)
           aliceToBob atBank (mkWorld bankAfterTransfer [] [])).
  vm_compute; reflexivity.
Defined.

(** The bank holds 700 before and after Alice's 100 to Bob. *)
Lemma handleTransfer_conserves_total_witness :
  totalBalance bank = 700 ∧ totalBalance bankAfterTransfer = totalBalance bank.
Proof.
  split; [reflexivity|].
  apply (handleTransfer_conserves_total (env := localLedger)
           aliceToBob atBank (mkWorld bankAfterTransfer [] []));
    [ vm_compute; reflexivity
    | intros a Ha; vm_compute in Ha; simplify_eq; eexists; reflexivity
    | intros a Ha; vm_compute in Ha; simplify_eq; eexists; reflexivity ].
Defined.

(** Alice can send Bob 100000, which she does not have, and cannot send
    anything to account 9, which does not exist. *)
Lemma handleTransfer_succeeds_iff_resolved_witness :
  (∃ w', handleTransfer (env := localLedger)
           (mkRequest 1 (mkTransferData 1 2 100000 "all of it" Internal)) atBank
         = (Ok tt, w')) ∧
  ¬ (∃ w', handleTransfer (env := localLedger) aliceToNobody atBank = (Ok tt, w')).
Proof.
  split.
  - apply (handleTransfer_succeeds_iff_resolved (env := localLedger));
      [intros s; reflexivity|].
    split; eexists; reflexivity.
  - intros Hok.
    apply (handleTransfer_succeeds_iff_resolved (env := localLedger)) in Hok
      as [_ [a Ha]]; [|intros s; reflexivity].
    vm_compute in Ha. discriminate.
Defined.

Lemma handleTransfer_begin_fails_witness :
  handleTransfer (env := storeDown) aliceToBob atBank
  = (Throw (DatabaseError "ECONNREFUSED"), atBank).
Proof.
  apply (handleTransfer_begin_fails (env := storeDown) aliceToBob atBank).
  reflexivity.
Defined.

(** The debit, first update of Alice's external transfer, fails. *)
Lemma handleTransfer_first_update_fails_witness :
  handleTransfer (env := debitDown) aliceToExternal atBank
  = (Throw (DatabaseError "ER_LOCK_DEADLOCK"), atBank).
Proof.
  apply (handleTransfer_first_update_fails (env := debitDown)
           aliceToExternal atBank (DatabaseError "ER_LOCK_DEADLOCK") alice bob);
    [repeat split | reflexivity..].
Defined.

(** The debit of Alice's 100 to Bob fails: Bob has 300, Alice still 500. *)
Lemma handleInternalTransfer_debit_fails_witness :
  handleTransfer (env := debitDown) aliceToBob atBank
  = (Throw (DatabaseError "ER_LOCK_DEADLOCK"),
     mkWorld (addBalance 2 100 bank) [] []) ∧
  balance (addBalance 2 100 bank) 2 = Some 300 ∧
  balance (addBalance 2 100 bank) 1 = Some 500.
Proof.
  split; [|split; reflexivity].
  apply (handleInternalTransfer_debit_fails (env := debitDown)
           aliceToBob atBank (DatabaseError "ER_LOCK_DEADLOCK") alice bob);
    [reflexivity | repeat split | reflexivity..].
Defined.

(** Bob's session sends 50 from Alice's account to the external account
    as well as hers does. *)
Lemma handleExternalTransfer_ignores_caller_witness :
  handleTransfer (env := localLedger)
    (mkRequest 1 (mkTransferData 1 7 50 "invoice" External)) atBank
  = handleTransfer (env := localLedger)
      (mkRequest 2 (mkTransferData 1 7 50 "invoice" External)) atBank.
Proof.
  apply (handleExternalTransfer_ignores_caller (env := localLedger)).
  reflexivity.
Defined.

Lemma history_Permutation_witness :
  sumMagnitudes [paid50; received20; moved100; paid5] < 2 ^ 53 ∧
  history (env := localLedger) [paid50; received20; moved100; paid5]
  = history (env := localLedger) [paid5; moved100; received20; paid50].
Proof.
  split; [vm_compute; reflexivity|].
  apply (history_Permutation (env := localLedger)).
  - apply (Permutation_rev [paid50; received20; moved100; paid5]).
  - vm_compute; reflexivity.
Defined.

(** The two days of Alice's week, the later one first. *)
Lemma history_days_add_up_witness :
  sumDayIncome
    (resp_lastWeek (history (env := localLedger) [paid50; received20; moved100; paid5]))
    ["Sat Apr 11 1970"; "Fri Apr 10 1970"]%string
  = resp_income (history (env := localLedger) [paid50; received20; moved100; paid5]) ∧
  sumDayExpenses
    (resp_lastWeek (history (env := localLedger) [paid50; received20; moved100; paid5]))
    ["Sat Apr 11 1970"; "Fri Apr 10 1970"]%string
  = resp_expenses (history (env := localLedger) [paid50; received20; moved100; paid5]).
Proof.
  apply (history_days_add_up (env := localLedger)
           [paid50; received20; moved100; paid5]).
  - vm_compute; reflexivity.
  - vm_compute; first [reflexivity | apply perm_swap].
Defined.

Lemma history_signs_witness :
  jsLe jsZero
    (resp_income (history (env := localLedger) [paid50; received20; moved100; paid5]))
  = true ∧
  jsLe
    (resp_expenses (history (env := localLedger) [paid50; received20; moved100; paid5]))
    jsZero
  = true.
Proof.
  destruct (history_signs (env := localLedger)
              [paid50; received20; moved100; paid5]) as (Hincome & Hexpenses & _).
  - repeat constructor; vm_compute; discriminate.
  - split; [exact Hincome | exact Hexpenses].
Defined.

(** Alice holds 30 in cash and is given 100. *)
Lemma handleGiveCash_adds_witness :
  ∃ w',
    handleGiveCash (env := localLedger) 1 100 atBank
      = (Ok (Some (mkCash "alice" 30)), w') ∧
    cash (db w') !! "alice"%string = Some 130.
Proof.
  apply (handleGiveCash_adds (env := localLedger) 1 100 atBank 30);
    reflexivity.
Defined.

Lemma take_then_give_restores_witness :
  ∃ r,
    (handleTakeCash (env := localLedger) 1 100;;
     handleGiveCash (env := localLedger) 1 100) atBank
    = (Ok r, atBank).
Proof.
  apply (take_then_give_restores (env := localLedger) 1 100 atBank);
    reflexivity.
Defined.

(** Bob has no cash row. *)
Lemma give_without_row_gives_nothing_witness :
  (before ← getMyCash (env := localLedger) 2;
   given ← handleGiveCash (env := localLedger) 2 100;
   after ← getMyCash (env := localLedger) 2;
   mret (before, given, after)) atBank
  = (Ok (0, None, 0), atBank).
Proof.
  apply (give_without_row_gives_nothing (env := localLedger) 2 100 atBank);
    reflexivity.
Defined.

Lemma getMyCash_after_take_witness :
  ∃ w',
    (taken ← handleTakeCash (env := localLedger) 1 100;
     now ← getMyCash (env := localLedger) 1;
     mret (taken, now)) atBank
    = (Ok (Some (mkCash "alice" 30), 30 - 100), w').
Proof.
  apply (getMyCash_after_take (env := localLedger) 1 100 atBank 30);
    reflexivity.
Defined.

Lemma cash_handlers_touch_one_row_witness :
  ∃ w',
    handleTakeCash (env := localLedger) 1 100 atBank
      = (Ok (Some (mkCash "alice" 30)), w') ∧
    accounts (db w') = accounts bank ∧ transactions (db w') = [] ∧
    exportCalls w' = [].
Proof.
  eexists. split; [vm_compute; reflexivity|].
  edestruct (cash_handlers_touch_one_row (env := localLedger) 1 100 atBank)
    as (_ & Haccounts & Hledger & _ & _ & Hcalls);
    [reflexivity | left; vm_compute; reflexivity |].
  split; [exact Haccounts|]. split; [exact Hledger | exact Hcalls].
Defined.

Lemma cash_handlers_throw_unchanged_witness :
  handleTakeCash (env := storeDown) 1 100 atBank
  = (Throw (DatabaseError "ECONNREFUSED"), atBank) ∧
  atBank = atBank.
Proof.
  split; [reflexivity|].
  apply (cash_handlers_throw_unchanged (env := storeDown) 1 100 atBank atBank
           (DatabaseError "ECONNREFUSED")); [reflexivity | left; reflexivity].
Defined.

Lemma read_handlers_change_nothing_witness :
  snd (handleGetHistory (env := localLedger) (mkRequest 1 tt)
         (mkWorld bankWithHistory [] [])) = mkWorld bankWithHistory [] [] ∧
  snd (handleGetMyTransactions (env := localLedger) (listing := pagedLedger)
         (mkRequest 1 (mkGetTransactionsInput 2 1))
         (mkWorld bankWithHistory [] [])) = mkWorld bankWithHistory [] [] ∧
  snd (getMyCash (env := localLedger) 1 (mkWorld bankWithHistory [] []))
  = mkWorld bankWithHistory [] [].
Proof.
  eapply (read_handlers_change_nothing (env := localLedger)
            (listing := pagedLedger) (mkWorld bankWithHistory [] []));
    apply surjective_pairing.
Defined.

